(** * RepoView backend: the OAuth relay of [apps/backend/api/index.py]

    A shallow embedding of the Flask application: the four routes
    ([authorize], [callback], [check_authorization], [get_repo]), the
    [auth_wrapper] decorator, and the three libraries they drive
    (the [itsdangerous] timed serializer, the Secrets Manager client of
    [boto3], and [requests]).

    Python [str] and [bytes] are both Rocq [string]s (sequences of 8-bit
    characters).  The secret store is a finite map from secret names to
    secret values.  Each view function runs in a small monad that threads
    the store, the per-request context [g] and a log of the library calls
    made, and that can raise a Python exception or [abort] with a status.
    What a request meets outside the process (the clock, the random
    identifier, the failures of the secret backend, the replies of GitHub)
    is an explicit argument, [Env].

    Left out: the route [/] and the CORS headers added to every response. *)

From Stdlib Require Import ZArith NArith Ascii String List Lia.
From stdpp Require Import gmap strings list.

Open Scope string_scope.

(** ** Python string operations used by the application and by itsdangerous *)

(** [c in s] for a one-character [c]. *)
Fixpoint contains (c : ascii) (s : string) : bool :=
  match s with
  | EmptyString => false
  | String d rest => Ascii.eqb d c || contains c rest
  end.

(** [s.rsplit(sep, 1)] when [sep in s]: the text before and after the last
    separator; [None] when [s] holds no separator. *)
Fixpoint rsplit1 (sep : ascii) (s : string) : option (string * string) :=
  match s with
  | EmptyString => None
  | String c rest =>
      match rsplit1 sep rest with
      | Some (before, after) => Some (String c before, after)
      | None => if Ascii.eqb c sep then Some (EmptyString, rest) else None
      end
  end.

(** [s.split(sep)] for a one-character [sep]: always at least one segment. *)
Fixpoint split (sep : ascii) (s : string) : list string :=
  match s with
  | EmptyString => [EmptyString]
  | String c rest =>
      if Ascii.eqb c sep then EmptyString :: split sep rest
      else match split sep rest with
           | seg :: segs => String c seg :: segs
           | [] => [String c EmptyString]
           end
  end.

(** [s.startswith(p)]. *)
Fixpoint startswith (p s : string) : bool :=
  match p, s with
  | EmptyString, _ => true
  | String a p', String b s' => Ascii.eqb a b && startswith p' s'
  | String _ _, EmptyString => false
  end.

(** ** itsdangerous.encoding *)

Definition base64_alphabet : string :=
  "ABCDEFGHIJKLMNOPQRSTUVWXYZabcdefghijklmnopqrstuvwxyz0123456789-_".

(** The character of the URL-safe alphabet for a 6-bit value. *)
Definition base64_char (i : N) : ascii :=
  match String.get (N.to_nat i) base64_alphabet with
  | Some c => c
  | None => "A"%char
  end.

(** [base64_encode]: [base64.urlsafe_b64encode(string).rstrip(b"=")]. *)
Fixpoint base64_encode (s : string) : string :=
  match s with
  | String a (String b (String c rest)) =>
      let x := N_of_ascii a in
      let y := N_of_ascii b in
      let z := N_of_ascii c in
      String (base64_char (x / 4))
        (String (base64_char ((x mod 4) * 16 + y / 16))
           (String (base64_char ((y mod 16) * 4 + z / 64))
              (String (base64_char (z mod 64)) (base64_encode rest))))
  | String a (String b EmptyString) =>
      let x := N_of_ascii a in
      let y := N_of_ascii b in
      String (base64_char (x / 4))
        (String (base64_char ((x mod 4) * 16 + y / 16))
           (String (base64_char ((y mod 16) * 4)) EmptyString))
  | String a EmptyString =>
      let x := N_of_ascii a in
      String (base64_char (x / 4))
        (String (base64_char ((x mod 4) * 16)) EmptyString)
  | EmptyString => EmptyString
  end%N.

(** [struct.Struct(">Q").pack] restricted to its low [k] bytes: the
    big-endian bytes of [n], most significant first. *)
Fixpoint pack_be (k : nat) (n : N) : string :=
  match k with
  | O => EmptyString
  | S k' => String (ascii_of_N ((n / 256 ^ N.of_nat k') mod 256)) (pack_be k' n)
  end%N.

(** [bytes.lstrip(b"\x00")]. *)
Fixpoint lstrip_zero (s : string) : string :=
  match s with
  | String c rest => if Ascii.eqb c zero then lstrip_zero rest else s
  | EmptyString => EmptyString
  end.

(** [int_to_bytes]: [pack(">Q", num).lstrip(b"\x00")]; [struct.error] when
    [num] does not fit 64 bits. *)
Definition int_to_bytes (num : N) : option string :=
  if (num <? 2 ^ 64)%N then Some (lstrip_zero (pack_be 8 num)) else None.

(** The value of a big-endian byte string. *)
Fixpoint unpack_be (acc : N) (s : string) : N :=
  match s with
  | EmptyString => acc
  | String c rest => unpack_be (acc * 256 + N_of_ascii c) rest
  end%N.

(** [bytes_to_int]: [unpack(">Q", bytestr.rjust(8, b"\x00"))]; [struct.error]
    when the string is longer than eight bytes. *)
Definition bytes_to_int (bytestr : string) : option N :=
  if (String.length bytestr <=? 8)%nat then Some (unpack_be 0 bytestr) else None.

(** ** Decoded JSON documents *)

#[warnings="-register-all"]
Inductive json :=
| JNull
| JBool (b : bool)
| JNum (literal : string)
| JStr (s : string)
| JArr (items : list json)
| JObj (fields : list (string * json)).

(** Lookup of a key in a decoded object. *)
Fixpoint assoc (k : string) (fields : list (string * json)) : option json :=
  match fields with
  | [] => None
  | (k', v) :: rest => if String.eqb k' k then Some v else assoc k rest
  end.

(** ** Exceptions and outcomes *)

(** The exception classes the application tells apart.  [BadSignature]
    stands for itself and for its subclass [BadTimeSignature];
    [SignatureExpired] is the one subclass [loads] re-raises at once;
    [BadPayload] derives from [BadData] only.  Every other class
    ([ClientError], [ParamValidationError], [KeyError], ...) is only ever
    caught by [except Exception] and rendered with [str]. *)
Inductive exn_class := SignatureExpired | BadSignature | BadPayload | OtherException.

(** A raised exception: its class and [str(e)]. *)
Inductive exn := Exn (cls : exn_class) (msg : string).

Definition exn_cls (e : exn) : exn_class := let 'Exn c _ := e in c.
Definition str (e : exn) : string := let 'Exn _ m := e in m.

(** What evaluating a Python expression or statement yields: a value, a
    raised exception, or [abort(code, description)]. *)
Inductive outcome (A : Type) :=
| Return (a : A)
| Raise (e : exn)
| Aborted (code : nat) (description : string).
Arguments Return {A} a.
Arguments Raise {A} e.
Arguments Aborted {A} code description.

(** ** The libraries behind the application

    The parts of the Python runtime that the application only reaches
    through a library call and whose inner working plays no role: the keyed
    digest of the signer (key derivation followed by HMAC), [zlib],
    the JSON codec of the serializer, the base64 decoder, [str()] of a
    decoded JSON value that is not a string, and the texts of the errors
    that a decoded value of the wrong type meets: the [TypeError] of a
    subscript and the [AttributeError] of [.get] on a value that is not a
    dict, and the [ParamValidationError] of boto3 for a [SecretString] that
    is not a [str]. *)
Record Runtime := {
  signature : string -> string -> string;
  zlib_compress : string -> string;
  zlib_decompress : string -> option string;
  json_dumps : string -> string;
  json_loads : string -> option json;
  base64_decode : string -> option string;
  py_str : json -> string;
  subscript_error : json -> string;
  attribute_error : json -> string;
  validation_error : json -> string;
}.

(** What the proofs use of those libraries: each decoder inverts its
    encoder. *)
Record RuntimeOk (R : Runtime) : Prop := {
  base64_decode_encode : forall b, base64_decode R (base64_encode b) = Some b;
  zlib_decompress_compress : forall b, zlib_decompress R (zlib_compress R b) = Some b;
  json_loads_dumps : forall s, json_loads R (json_dumps R s) = Some (JStr s);
}.

(** ** itsdangerous: [URLSafeTimedSerializer(secret_key)] *)

Section Serializer.
Context (R : Runtime) (secret_key : string).

Definition sep : ascii := "."%char.

(** [Signer.get_signature]. *)
Definition get_signature (value : string) : string :=
  base64_encode (signature R secret_key value).

(** [Signer.verify_signature]: decode the presented signature and compare
    it with the digest of the value. *)
Definition verify_signature (value sig : string) : bool :=
  match base64_decode R sig with
  | Some raw => String.eqb raw (signature R secret_key value)
  | None => false
  end.

(** [Signer.unsign]; [None] is [BadSignature]. *)
Definition Signer_unsign (signed_value : string) : option string :=
  match rsplit1 sep signed_value with
  | None => None
  | Some (value, sig) => if verify_signature value sig then Some value else None
  end.

(** [TimestampSigner.sign] at clock reading [now]. *)
Definition TimestampSigner_sign (now : N) (value : string) : outcome string :=
  match int_to_bytes now with
  | None => Raise (Exn OtherException "'Q' format requires 0 <= number <= 18446744073709551615")
  | Some raw =>
      let value := value +:+ String sep (base64_encode raw) in
      Return (value +:+ String sep (get_signature value))
  end.

(** [TimestampSigner.unsign(signed_value, max_age)] at clock reading
    [now].  Whatever goes wrong before the age check is a [BadSignature]
    (or its subclass [BadTimeSignature]); the conversion of the timestamp
    to a [datetime] is left out. *)
Definition TimestampSigner_unsign (now : N) (max_age : Z) (signed_value : string)
  : outcome string :=
  match Signer_unsign signed_value with
  | None => Raise (Exn BadSignature "Signature does not match")
  | Some result =>
      match rsplit1 sep result with
      | None => Raise (Exn BadSignature "timestamp missing")
      | Some (value, ts_bytes) =>
          match base64_decode R ts_bytes ≫= bytes_to_int with
          | None => Raise (Exn BadSignature "Malformed timestamp")
          | Some ts_int =>
              let age := (Z.of_N now - Z.of_N ts_int)%Z in
              if (max_age <? age)%Z then Raise (Exn SignatureExpired "Signature age > max_age seconds")
              else if (age <? 0)%Z then Raise (Exn SignatureExpired "Signature age < 0 seconds")
              else Return value
          end
      end
  end.

(** [URLSafeSerializerMixin.dump_payload]. *)
Definition dump_payload (obj : string) : string :=
  let json := json_dumps R obj in
  let compressed := zlib_compress R json in
  if (Z.of_nat (String.length compressed) <? Z.of_nat (String.length json) - 1)%Z
  then String "." (base64_encode compressed)
  else base64_encode json.

(** [URLSafeSerializerMixin.load_payload]; [None] is [BadPayload]. *)
Definition load_payload (payload : string) : option json :=
  match payload with
  | String "." rest => (base64_decode R rest ≫= zlib_decompress R) ≫= json_loads R
  | _ => base64_decode R payload ≫= json_loads R
  end.

(** [serializer.dumps(obj)]. *)
Definition dumps (now : N) (obj : string) : outcome string :=
  TimestampSigner_sign now (dump_payload obj).

(** [serializer.loads(s, max_age=max_age)]. *)
Definition loads (now : N) (max_age : Z) (s : string) : outcome json :=
  match TimestampSigner_unsign now max_age s with
  | Return base64d =>
      match load_payload base64d with
      | Some payload => Return payload
      | None => Raise (Exn BadPayload "Could not load the payload")
      end
  | Raise e => Raise e
  | Aborted c d => Aborted c d
  end.
End Serializer.

(** ** urllib.parse.quote *)

Definition hex_digit (n : N) : ascii :=
  match String.get (N.to_nat n) "0123456789ABCDEF" with
  | Some c => c
  | None => "0"%char
  end.

(** Letters, digits and [_.-~] are never quoted; [/] is the default [safe]. *)
Definition quote_safe (c : ascii) : bool :=
  let n := N_of_ascii c in
  ((65 <=? n) && (n <=? 90) || (97 <=? n) && (n <=? 122) || (48 <=? n) && (n <=? 57)
   || contains c "_.-~/")%N.

Fixpoint quote (s : string) : string :=
  match s with
  | EmptyString => EmptyString
  | String c rest =>
      if quote_safe c then String c (quote rest)
      else String "%" (String (hex_digit (N_of_ascii c / 16))
                         (String (hex_digit (N_of_ascii c mod 16)) (quote rest)))
  end%N.

(** ** Process configuration and the world outside *)

(** The environment variables read by the application, all set. *)
Record Config := {
  SECRET_KEY : string;
  GITHUB_CLIENT_ID : string;
  GITHUB_CLIENT_SECRET : string;
  ENV : string;
}.

(** A secret as Secrets Manager holds it: the response of
    [get_secret_value] has a ["SecretString"] entry exactly for the first
    kind. *)
Inductive secret_value := SecretString (s : string) | SecretBinary (b : string).

(** The library calls a view function makes, in the order it makes them. *)
Inductive call :=
| SerializerDumps (obj : string)
| SerializerLoads (s : string) (max_age : Z)
| CreateSecret (Name SecretString : string)
| GetSecretValue (SecretId : string)
| PutSecretValue (SecretId : string) (SecretString : json)
| RequestsPost (url : string) (data headers : list (string * string))
| RequestsGet (url : string) (headers : list (string * string)).

(** What [requests] gives back: an exception raised by the call itself, a
    response whose [.json()] raises, or a response whose [.json()] is [j]. *)
Inductive http_reply :=
| ConnectionFailed (msg : string)
| NotJson (msg : string)
| Body (j : json).

(** Everything a request depends on beyond the store: the clock, the
    random identifier [str(uuid4())], [url_for("callback", _external=True)],
    the failures of the secret backend (the text of the error a call meets,
    if any) and the replies of the HTTP peers. *)
Record Env := {
  time_now : N;
  uuid4 : string;
  url_for_callback : string;
  aws_error : call -> option string;
  http : call -> http_reply;
}.

(** The incoming request: [request.args] and
    [request.headers.get("Authorization")]. *)
Record Request := {
  args : list (string * string);
  authorization : option string;
}.

(** [request.args.get(key, "")]: the first value of [key]. *)
Fixpoint args_get (key : string) (a : list (string * string)) : string :=
  match a with
  | [] => ""
  | (k, v) :: rest => if String.eqb k key then v else args_get key rest
  end.

(** The state a view function works on: the secret store, the calls made
    so far and [g.access_token]. *)
Record World := {
  secrets : gmap string secret_value;
  calls : list call;
  g_access_token : option string;
}.

(** ** The monad of view functions *)

Definition M (A : Type) : Type := World -> outcome A * World.

#[global] Instance M_ret : MRet M := fun A a w => (Return a, w).
#[global] Instance M_bind : MBind M := fun A B f m w =>
  match m w with
  | (Return a, w') => f a w'
  | (Raise e, w') => (Raise e, w')
  | (Aborted c d, w') => (Aborted c d, w')
  end.

(** [abort(code, description)]. *)
Definition abort {A} (code : nat) (description : string) : M A :=
  fun w => (Aborted code description, w).

Definition raise {A} (e : exn) : M A := fun w => (Raise e, w).

(** Lift a pure library result. *)
Definition lift {A} (o : outcome A) : M A := fun w => (o, w).

(** [try: body / except Exception as e: handler(e)].  No [try] body of the
    application calls [abort], so only raised exceptions reach a handler. *)
Definition try_except {A} (body : M A) (handler : exn -> M A) : M A :=
  fun w =>
    match body w with
    | (Raise e, w') => handler e w'
    | r => r
    end.

(** [except (SignatureExpired, BadSignature)]: the classes caught, with
    their subclasses. *)
Definition bad_signature (e : exn) : bool :=
  match exn_cls e with
  | SignatureExpired | BadSignature => true
  | BadPayload | OtherException => false
  end.

(** [try: body / except (SignatureExpired, BadSignature): handler]. *)
Definition try_except_signature {A} (body : M A) (handler : M A) : M A :=
  fun w =>
    match body w with
    | (Raise e, w') => if bad_signature e then handler w' else (Raise e, w')
    | r => r
    end.

(** The world after one more library call. *)
Definition log (c : call) (w : World) : World :=
  {| secrets := secrets w; calls := calls w ++ [c]; g_access_token := g_access_token w |}.

Definition record (c : call) : M unit := fun w => (Return tt, log c w).

Definition get_secrets : M (gmap string secret_value) := fun w => (Return (secrets w), w).

Definition set_secret (name : string) (v : secret_value) : M unit :=
  fun w => (Return tt, {| secrets := <[name := v]> (secrets w); calls := calls w;
                          g_access_token := g_access_token w |}).

(** [g.access_token = v]. *)
Definition g_set (v : string) : M unit :=
  fun w => (Return tt, {| secrets := secrets w; calls := calls w;
                          g_access_token := Some v |}).

(** [g.pop("access_token", None)]. *)
Definition g_pop : M (option string) :=
  fun w => (Return (g_access_token w),
            {| secrets := secrets w; calls := calls w; g_access_token := None |}).

(** What a view function returns: [jsonify(...)], a [(text, status)]
    tuple, or a value handed to Flask as it is. *)
Inductive rv :=
| Jsonify (fields : list (string * string))
| Tuple (text : string) (status : nat)
| Value (v : json).

(** ** The application *)

Section App.
Context (R : Runtime) (cfg : Config) (env : Env).

Definition newline : string := String (ascii_of_N 10) EmptyString.

(** *** [serializer = URLSafeTimedSerializer(environ["SECRET_KEY"])] *)

Definition serializer_dumps (obj : string) : M string :=
  record (SerializerDumps obj);;
  lift (dumps R (SECRET_KEY cfg) (time_now env) obj).

Definition serializer_loads (s : string) (max_age : Z) : M json :=
  record (SerializerLoads s max_age);;
  lift (loads R (SECRET_KEY cfg) (time_now env) max_age s).

(** *** [aws_client]: the Secrets Manager client

    A call first passes the parameter validation of boto3 (the types and
    the minimum lengths of its parameters), then reaches the backend,
    which may fail for reasons of its own ([aws_error]: the network, the
    credentials, a parameter the service refuses). *)

Definition invalid_length (parameter : string) : exn :=
  Exn OtherException ("Parameter validation failed:" +:+ newline +:+
    "Invalid length for parameter " +:+ parameter +:+ ", value: 0, valid min length: 1").

Definition create_secret (Name SecretString_ : string) : M unit :=
  let c := CreateSecret Name SecretString_ in
  record c;;
  if String.eqb Name "" then raise (invalid_length "Name")
  else if String.eqb SecretString_ "" then raise (invalid_length "SecretString")
  else
    match aws_error env c with
    | Some msg => raise (Exn OtherException msg)
    | None =>
        st ← get_secrets;
        match st !! Name with
        | Some _ =>
            raise (Exn OtherException
              ("An error occurred (ResourceExistsException) when calling the CreateSecret operation: The operation failed because the secret "
               +:+ Name +:+ " already exists."))
        | None => set_secret Name (SecretString SecretString_)
        end
    end.

Definition get_secret_value (SecretId : string) : M secret_value :=
  let c := GetSecretValue SecretId in
  record c;;
  if String.eqb SecretId "" then raise (invalid_length "SecretId")
  else
    match aws_error env c with
    | Some msg => raise (Exn OtherException msg)
    | None =>
        st ← get_secrets;
        match st !! SecretId with
        | Some v => mret v
        | None =>
            raise (Exn OtherException
              "An error occurred (ResourceNotFoundException) when calling the GetSecretValue operation: Secrets Manager can't find the specified secret.")
        end
    end.

Definition put_secret_value (SecretId : string) (SecretString_ : json) : M unit :=
  let c := PutSecretValue SecretId SecretString_ in
  record c;;
  match SecretString_ with
  | JStr s =>
      if String.eqb SecretId "" then raise (invalid_length "SecretId")
      else if String.eqb s "" then raise (invalid_length "SecretString")
      else
        match aws_error env c with
        | Some msg => raise (Exn OtherException msg)
        | None =>
            st ← get_secrets;
            match st !! SecretId with
            | Some _ => set_secret SecretId (SecretString s)
            | None =>
                raise (Exn OtherException
                  "An error occurred (ResourceNotFoundException) when calling the PutSecretValue operation: Secrets Manager can't find the specified secret.")
            end
        end
  | v => raise (Exn OtherException (validation_error R v))
  end.

(** *** [requests] and the decoded replies *)

Definition requests_send (c : call) : M http_reply :=
  record c;;
  match http env c with
  | ConnectionFailed msg => raise (Exn OtherException msg)
  | r => mret r
  end.

(** [response.json()]. *)
Definition response_json (r : http_reply) : M json :=
  match r with
  | Body j => mret j
  | NotJson msg | ConnectionFailed msg => raise (Exn OtherException msg)
  end.

(** [j.get(key)]. *)
Definition dict_get (j : json) (key : string) : M json :=
  match j with
  | JObj fields => mret (default JNull (assoc key fields))
  | _ => raise (Exn OtherException (attribute_error R j))
  end.

(** [j[key]]: [KeyError] renders as the [repr] of the key. *)
Definition subscript (j : json) (key : string) : M json :=
  match j with
  | JObj fields =>
      match assoc key fields with
      | Some v => mret v
      | None => raise (Exn OtherException ("'" +:+ key +:+ "'"))
      end
  | _ => raise (Exn OtherException (subscript_error R j))
  end.

(** [f"{v}"] for a decoded value. *)
Definition format_value (v : json) : string :=
  match v with
  | JStr s => s
  | _ => py_str R v
  end.

Definition callback_url : string :=
  if String.eqb (ENV cfg) "production" then url_for_callback env
  else "http://localhost:8080/callback".

(** The URL the client is sent to, for a given [state]. *)
Definition redirect_url (state : string) : string :=
  "https://github.com/login/oauth/authorize?client_id=" +:+ GITHUB_CLIENT_ID cfg
  +:+ "&redirect_uri=" +:+ quote callback_url
  +:+ "&scope=" +:+ "public_repo" +:+ "&state=" +:+ state.

(** *** [POST /authorize] *)
Definition authorize : M rv :=
  session_id ← try_except
    (session_id ← serializer_dumps (uuid4 env);
     create_secret session_id "null";;
     mret session_id)
    (fun e => abort 500 ("AWS Secret creation failed - " +:+ str e));
  let client_id := GITHUB_CLIENT_ID cfg in
  let scope := "public_repo" in
  let github_auth_url :=
    "https://github.com/login/oauth/authorize?client_id=" +:+ client_id
    +:+ "&redirect_uri=" +:+ quote callback_url
    +:+ "&scope=" +:+ scope +:+ "&state=" +:+ session_id in
  mret (Jsonify [("redirect_url", github_auth_url); ("session_id", session_id)]).

(** *** [GET /callback] *)
Definition callback (request : Request) : M rv :=
  let state := args_get "state" (args request) in
  let code := args_get "code" (args request) in
  if String.eqb state "" || String.eqb code "" then
    abort 400 "Missing state or code"
  else
    try_except_signature
      (serializer_loads state 600;; mret tt)
      (abort 401 "Invalid or expired state");;
    session_secret ← try_except
      (get_secret_value state)
      (fun e => abort 401 ("Unauthorized: AWS Secret fetch failed - " +:+ str e));
    match session_secret with
    | SecretBinary _ => abort 401 "Invalid state"
    | SecretString _ =>
        let client_id := GITHUB_CLIENT_ID cfg in
        let client_secret := GITHUB_CLIENT_SECRET cfg in
        let data := [("client_id", client_id); ("client_secret", client_secret);
                     ("code", code); ("redirect_uri", callback_url)] in
        let headers := [("Accept", "application/json")] in
        response ← try_except
          (requests_send (RequestsPost "https://github.com/login/oauth/access_token"
                            data headers))
          (fun e => abort 401 ("GitHub access token fetch failed - " +:+ str e));
        j ← response_json response;
        access_token ← dict_get j "access_token";
        try_except
          (put_secret_value state access_token)
          (fun e => abort 500 ("AWS Secret update failed - " +:+ str e));;
        mret (Tuple "Authorization complete. Feel free to return to VSCode." 200)
    end.

(** *** [auth_wrapper] *)
Definition auth_wrapper (func : M rv) (request : Request) : M rv :=
  match authorization request with
  | None => abort 401 "Authorization header not found"
  | Some auth_header =>
      if String.eqb auth_header "" || negb (startswith "Bearer " auth_header) then
        abort 401 "Authorization header not found"
      else
        match split " " auth_header !! 1%nat with
        | None => raise (Exn OtherException "list index out of range")
        | Some session_id =>
            session_secret ← try_except
              (get_secret_value session_id)
              (fun e => abort 401 ("Unauthorized: AWS Secret fetch failed - " +:+ str e));
            match session_secret with
            | SecretBinary _ => abort 401 "Unauthorized: SecretString not found"
            | SecretString access_token =>
                if String.eqb access_token "" || String.eqb access_token "null" then
                  abort 401 "Unauthorized: access_token not found"
                else
                  g_set access_token;;
                  func
            end
        end
  end.

(** *** [GET /check-authorization] *)
Definition check_authorization : Request -> M rv :=
  auth_wrapper (mret (Tuple "Success" 200)).

(** *** [GET /repos/<owner>/<repo>/files] *)

(** The function under the decorator. *)
Definition get_repo_body (owner repo : string) : M rv :=
  access_token ← g_pop;
  let headers := [("Authorization", "Bearer " +:+ default "None" access_token)] in
  default_branch ← try_except
    (response ← requests_send
       (RequestsGet ("https://api.github.com/repos/" +:+ owner +:+ "/" +:+ repo) []);
     j ← response_json response;
     subscript j "default_branch")
    (fun e => abort 500 ("GitHub repo fetch failed - " +:+ str e));
  commit_sha ← try_except
    (response ← requests_send
       (RequestsGet ("https://api.github.com/repos/" +:+ owner +:+ "/" +:+ repo
                     +:+ "/branches/" +:+ format_value default_branch) headers);
     j ← response_json response;
     commit ← subscript j "commit";
     subscript commit "sha")
    (fun e => abort 500 ("GitHub repo fetch failed - " +:+ str e));
  mret (Value commit_sha).

Definition get_repo (owner repo : string) : Request -> M rv :=
  auth_wrapper (get_repo_body owner repo).
End App.

(** The part of [auth_wrapper] that follows the reading of the session
    identifier off the header, on its own. *)
Definition resolve (env : Env) (func : M rv) (session_id : string) : M rv :=
  session_secret ← try_except
    (get_secret_value env session_id)
    (fun e => abort 401 ("Unauthorized: AWS Secret fetch failed - " +:+ str e));
  match session_secret with
  | SecretBinary _ => abort 401 "Unauthorized: SecretString not found"
  | SecretString access_token =>
      if String.eqb access_token "" || String.eqb access_token "null" then
        abort 401 "Unauthorized: access_token not found"
      else
        g_set access_token;;
        func
  end.

(** ** Flask: dispatch and responses *)

Inductive route :=
| Authorize
| Callback
| CheckAuthorization
| Files (owner repo : string).

Inductive body := Text (s : string) | JsonBody (j : json).

Record Response := { status_code : nat; response_body : body }.

(** The response Flask builds from what a view function did: the returned
    value, the [abort], or the error page of an exception nobody caught.
    A returned value that is neither a string, a dict nor a list is itself
    an error. *)
Definition make_response (o : outcome rv) : Response :=
  match o with
  | Return (Jsonify fields) =>
      {| status_code := 200;
         response_body := JsonBody (JObj (map (fun kv => (kv.1, JStr kv.2)) fields)) |}
  | Return (Tuple text status) => {| status_code := status; response_body := Text text |}
  | Return (Value (JStr s)) => {| status_code := 200; response_body := Text s |}
  | Return (Value (JObj f)) => {| status_code := 200; response_body := JsonBody (JObj f) |}
  | Return (Value (JArr l)) => {| status_code := 200; response_body := JsonBody (JArr l) |}
  | Return (Value _) => {| status_code := 500; response_body := Text "Internal Server Error" |}
  | Aborted code description => {| status_code := code; response_body := Text description |}
  | Raise _ => {| status_code := 500; response_body := Text "Internal Server Error" |}
  end.

Definition view (R : Runtime) (cfg : Config) (env : Env) (rt : route) : Request -> M rv :=
  match rt with
  | Authorize => fun _ => authorize R cfg env
  | Callback => callback R cfg env
  | CheckAuthorization => check_authorization env
  | Files owner repo => get_repo R env owner repo
  end.

(** One request against the store [st]: the response, the store afterwards
    and the library calls made. *)
Definition serve (R : Runtime) (cfg : Config) (env : Env) (rt : route) (request : Request)
    (st : gmap string secret_value) : Response * gmap string secret_value * list call :=
  let '(o, w) := view R cfg env rt request
                   {| secrets := st; calls := []; g_access_token := None |} in
  (make_response o, secrets w, calls w).

(** A request together with the world it meets. *)
Record Step := { step_env : Env; step_route : route; step_request : Request }.

Definition step (R : Runtime) (cfg : Config) (s : Step) (st : gmap string secret_value)
    : gmap string secret_value :=
  (serve R cfg (step_env s) (step_route s) (step_request s) st).1.2.

(** The store after a sequence of requests. *)
Definition run (R : Runtime) (cfg : Config) (steps : list Step) (st : gmap string secret_value)
    : gmap string secret_value :=
  fold_left (fun st s => step R cfg s st) steps st.

(** The stores a sequence of requests goes through, the first one included. *)
Fixpoint history (R : Runtime) (cfg : Config) (steps : list Step)
    (st : gmap string secret_value) : list (gmap string secret_value) :=
  st :: match steps with
        | [] => []
        | s :: rest => history R cfg rest (step R cfg s st)
        end.

(** The timestamp embedded in a correctly signed token, as
    [TimestampSigner.unsign] reads it. *)
Definition token_timestamp (R : Runtime) (secret_key : string) (s : string) : option N :=
  match Signer_unsign R secret_key s with
  | Some result =>
      match rsplit1 sep result with
      | Some (_, ts_bytes) => base64_decode R ts_bytes ≫= bytes_to_int
      | None => None
      end
  | None => None
  end.

(** ** A reference runtime

    One concrete choice for each library function of [Runtime], on which
    the model runs on concrete requests: a strict base64 decoder, a
    stored (uncompressed) zlib, a JSON codec for strings without escapes
    and a rolling checksum in the place of the keyed digest. *)

(** The position of [c] in [s], counted from [i]. *)
Fixpoint find_char (c : ascii) (s : string) (i : N) : option N :=
  match s with
  | EmptyString => None
  | String d rest => if Ascii.eqb d c then Some i else find_char c rest (i + 1)
  end.

Definition base64_index (c : ascii) : option N := find_char c base64_alphabet 0.

(** Decoding of unpadded URL-safe base64 that accepts alphabet characters
    only. *)
Fixpoint base64_decode_strict (s : string) : option string :=
  match s with
  | String c0 (String c1 (String c2 (String c3 rest))) =>
      match base64_index c0, base64_index c1, base64_index c2, base64_index c3,
            base64_decode_strict rest with
      | Some i0, Some i1, Some i2, Some i3, Some r =>
          Some (String (ascii_of_N (i0 * 4 + i1 / 16))
                  (String (ascii_of_N ((i1 mod 16) * 16 + i2 / 4))
                     (String (ascii_of_N ((i2 mod 4) * 64 + i3)) r)))
      | _, _, _, _, _ => None
      end
  | String c0 (String c1 (String c2 EmptyString)) =>
      match base64_index c0, base64_index c1, base64_index c2 with
      | Some i0, Some i1, Some i2 =>
          Some (String (ascii_of_N (i0 * 4 + i1 / 16))
                  (String (ascii_of_N ((i1 mod 16) * 16 + i2 / 4)) EmptyString))
      | _, _, _ => None
      end
  | String c0 (String c1 EmptyString) =>
      match base64_index c0, base64_index c1 with
      | Some i0, Some i1 => Some (String (ascii_of_N (i0 * 4 + i1 / 16)) EmptyString)
      | _, _ => None
      end
  | String _ EmptyString => None
  | EmptyString => Some EmptyString
  end%N.

Fixpoint rolling_checksum (h : N) (s : string) : N :=
  match s with
  | EmptyString => h
  | String c rest => rolling_checksum ((h * 31 + N_of_ascii c) mod 2 ^ 32) rest
  end%N.

(** JSON text of a string without escapes, and its reading back. *)
Definition dquote : ascii := "034"%char.

Definition json_dumps_plain (s : string) : string :=
  String dquote (s +:+ String dquote EmptyString).

Definition json_loads_plain (s : string) : option json :=
  match s with
  | String c rest =>
      if Ascii.eqb c dquote then
        match rsplit1 dquote rest with
        | Some (inner, EmptyString) => Some (JStr inner)
        | _ => None
        end
      else None
  | EmptyString => None
  end.

(** The Python type name of a decoded value. *)
Definition type_name (j : json) : string :=
  match j with
  | JNull => "NoneType"
  | JBool _ => "bool"
  | JNum _ => "int"
  | JStr _ => "str"
  | JArr _ => "list"
  | JObj _ => "dict"
  end.

(** How Python prints a decoded scalar; containers are abridged. *)
Definition py_repr (j : json) : string :=
  match j with
  | JNull => "None"
  | JBool true => "True"
  | JBool false => "False"
  | JNum literal => literal
  | JStr s => s
  | JArr _ => "[...]"
  | JObj _ => "{...}"
  end.

Definition reference_runtime : Runtime := {|
  signature key value := pack_be 4 (rolling_checksum 0 (key +:+ value));
  zlib_compress b := b;
  zlib_decompress b := Some b;
  json_dumps := json_dumps_plain;
  json_loads := json_loads_plain;
  base64_decode := base64_decode_strict;
  py_str := py_repr;
  subscript_error j := "'" +:+ type_name j +:+ "' object is not subscriptable";
  attribute_error j := "'" +:+ type_name j +:+ "' object has no attribute 'get'";
  validation_error j :=
    "Parameter validation failed:" +:+ newline
    +:+ "Invalid type for parameter SecretString, value: " +:+ py_repr j
    +:+ ", type: <class '" +:+ type_name j +:+ "'>, valid types: <class 'str'>";
|}.

(** ** A reference deployment

    A configuration and a world to run the application in: GitHub trades
    the codes ["validcode"] and ["secondcode"] for tokens and refuses any
    other, and knows the repository [acme/widgets]. *)

Definition demo_cfg : Config := {|
  SECRET_KEY := "s3cr3t";
  GITHUB_CLIENT_ID := "Iv1.8a61f9b3a7aba766";
  GITHUB_CLIENT_SECRET := "shhh";
  ENV := "development";
|}.

Definition demo_uuid : string := "f47ac10b-58cc-4372-a567-0e02b2c3d479".

Definition demo_http (c : call) : http_reply :=
  match c with
  | RequestsPost _ data _ =>
      if String.eqb (args_get "code" data) "validcode" then
        Body (JObj [("access_token", JStr "tok123"); ("token_type", JStr "bearer");
                    ("scope", JStr "public_repo")])
      else if String.eqb (args_get "code" data) "secondcode" then
        Body (JObj [("access_token", JStr "tok456"); ("token_type", JStr "bearer");
                    ("scope", JStr "public_repo")])
      else
        Body (JObj [("error", JStr "bad_verification_code")])
  | RequestsGet url _ =>
      if String.eqb url "https://api.github.com/repos/acme/widgets" then
        Body (JObj [("name", JStr "widgets"); ("default_branch", JStr "main")])
      else if String.eqb url "https://api.github.com/repos/acme/widgets/branches/main" then
        Body (JObj [("name", JStr "main"); ("commit", JObj [("sha", JStr "abc123")])])
      else
        Body (JObj [("message", JStr "Not Found")])
  | _ => ConnectionFailed "unsupported call"
  end.

Definition demo_env (now : N) : Env := {|
  time_now := now;
  uuid4 := demo_uuid;
  url_for_callback := "https://repoview.example/callback";
  aws_error := fun _ => None;
  http := demo_http;
|}.

(** The token [authorize] mints from [demo_uuid] at time 1700000000. *)
Definition demo_token : string :=
  "ImY0N2FjMTBiLTU4Y2MtNDM3Mi1hNTY3LTBlMDJiMmMzZDQ3OSI.ZVPxAA.JwZkpQ".

Definition empty_world : World :=
  {| secrets := ∅; calls := []; g_access_token := None |}.

#[global] Instance secret_value_eq_dec : EqDecision secret_value.
Proof. solve_decision. Defined.

(** How many times the value of the record [k] changes along a sequence of
    stores. *)
Fixpoint changes (k : string) (h : list (gmap string secret_value)) : nat :=
  match h with
  | st :: rest =>
      match rest with
      | st' :: _ =>
          match st !! k with
          | Some v => if decide (st' !! k = Some v) then 0 else 1
          | None => 0
          end
      | [] => 0
      end + changes k rest
  | [] => 0
  end.

(** Initiate, then two completed handshakes for the same state, 100 and
    200 seconds later. *)
Definition demo_steps : list Step :=
  [ {| step_env := demo_env 1700000000; step_route := Authorize;
       step_request := {| args := []; authorization := None |} |};
    {| step_env := demo_env 1700000100; step_route := Callback;
       step_request := {| args := [("state", demo_token); ("code", "validcode")];
                          authorization := None |} |};
    {| step_env := demo_env 1700000200; step_route := Callback;
       step_request := {| args := [("state", demo_token); ("code", "secondcode")];
                          authorization := None |} |} ].

(** ** The route [/] and the response hook *)

(** [hello_world]. *)
Definition hello_world : M rv := mret (Value (JStr "Hello, World!")).

(** [str.lower()] on one ASCII character. *)
Definition lower (c : ascii) : ascii :=
  let n := N_of_ascii c in
  if ((65 <=? n) && (n <=? 90))%N then ascii_of_N (n + 32) else c.

Fixpoint lower_str (s : string) : string :=
  match s with
  | EmptyString => EmptyString
  | String c rest => String (lower c) (lower_str rest)
  end.

(** Header names are compared without regard to case. *)
Definition same_header (a b : string) : bool :=
  String.eqb (lower_str a) (lower_str b).

(** The header tuples whose name is not [key]. *)
Fixpoint headers_remove (key : string) (h : list (string * string))
    : list (string * string) :=
  match h with
  | [] => []
  | (k, v) :: rest =>
      if same_header k key then headers_remove key rest
      else (k, v) :: headers_remove key rest
  end.

(** [response.headers[key] = value]: the first tuple of that name is
    replaced and the later ones removed; a new name is added at the end. *)
Fixpoint headers_set (key value : string) (h : list (string * string))
    : list (string * string) :=
  match h with
  | [] => [(key, value)]
  | (k, v) :: rest =>
      if same_header k key then (key, value) :: headers_remove key rest
      else (k, v) :: headers_set key value rest
  end.

(** [response.headers.get(key)]: the value of the first tuple of that name. *)
Fixpoint headers_get (key : string) (h : list (string * string)) : option string :=
  match h with
  | [] => None
  | (k, v) :: rest => if same_header k key then Some v else headers_get key rest
  end.

(** [add_cors_headers], on the headers of the response. *)
Definition add_cors_headers (h : list (string * string)) : list (string * string) :=
  headers_set "Access-Control-Allow-Headers" "Authorization,Content-Type"
    (headers_set "Access-Control-Allow-Methods" "GET,POST,OPTIONS"
       (headers_set "Access-Control-Allow-Origin" "*" h)).

(** The five URL rules of the application. *)
Inductive endpoint :=
| Index
| Routed (rt : route).

(** The view function of a rule, for a request that routing has handed to
    it: the URL matched the rule and the method is one the rule lists (see
    [wsgi_app] for the others). *)
Definition dispatch (R : Runtime) (cfg : Config) (env : Env) (e : endpoint)
    : Request -> M rv :=
  match e with
  | Index => fun _ => hello_world
  | Routed rt => view R cfg env rt
  end.

(** One request that reaches a view function, through the whole
    application: the view function, the response Flask builds from it, and
    the [after_request] hook applied to the headers that response starts
    with ([initial], set by Flask and its extensions). *)
Definition full_dispatch (R : Runtime) (cfg : Config) (env : Env)
    (initial : list (string * string)) (e : endpoint) (request : Request)
    (st : gmap string secret_value)
    : Response * list (string * string) * gmap string secret_value * list call :=
  let '(o, w) := dispatch R cfg env e request
                   {| secrets := st; calls := []; g_access_token := None |} in
  (make_response o, add_cors_headers initial, secrets w, calls w).

(** Every character of [s] is one [quote] leaves alone. *)
Fixpoint all_quote_safe (s : string) : bool :=
  match s with
  | EmptyString => true
  | String c rest => quote_safe c && all_quote_safe rest
  end.

(** What holds of every record the application itself wrote: a name that
    is not empty and holds no space, and a string value that is not empty. *)
Definition written_by_app (st : gmap string secret_value) : Prop :=
  forall k v, st !! k = Some v ->
    k <> "" /\ contains " " k = false /\ exists s, v = SecretString s /\ s <> "".

(** The reference world with GitHub out of reach, and with GitHub
    answering something that is not JSON. *)
Definition offline_env (now : N) : Env := {|
  time_now := now;
  uuid4 := demo_uuid;
  url_for_callback := "https://repoview.example/callback";
  aws_error := fun _ => None;
  http := fun _ => ConnectionFailed "Connection refused";
|}.

Definition garbled_env (now : N) : Env := {|
  time_now := now;
  uuid4 := demo_uuid;
  url_for_callback := "https://repoview.example/callback";
  aws_error := fun _ => None;
  http := fun _ => NotJson "Expecting value: line 1 column 1 (char 0)";
|}.

(** The reference store right after initiate, as a fresh request finds it. *)
Definition pending_world : World :=
  {| secrets := <[demo_token := SecretString "null"]> ∅; calls := [];
     g_access_token := None |}.

Definition demo_callback (code : string) : Request :=
  {| args := [("state", demo_token); ("code", code)]; authorization := None |}.

(** [demo_token] with the last character of its signature changed from
    [Q] to [R].  The last character of a base64 text whose length is 2
    modulo 4 carries two bits of data and four that decoding drops; the
    two characters differ in the dropped bits only. *)
Definition altered_token : string :=
  "ImY0N2FjMTBiLTU4Y2MtNDM3Mi1hNTY3LTBlMDJiMmMzZDQ3OSI.ZVPxAA.JwZkpR".

(** The request [callback] sends to GitHub for a [code]. *)
Definition exchange_call (cfg : Config) (env : Env) (code : string) : call :=
  RequestsPost "https://github.com/login/oauth/access_token"
    [("client_id", GITHUB_CLIENT_ID cfg); ("client_secret", GITHUB_CLIENT_SECRET cfg);
     ("code", code); ("redirect_uri", callback_url cfg env)]
    [("Accept", "application/json")].

(** Requests that reach the reference deployment more than 600 seconds
    after the token was minted: a callback for it, and another initiate. *)
Definition late_steps : list Step :=
  [ {| step_env := demo_env 1700000700; step_route := Callback;
       step_request := demo_callback "validcode" |};
    {| step_env := demo_env 1700000800; step_route := Authorize;
       step_request := {| args := []; authorization := None |} |};
    {| step_env := demo_env 1700000900; step_route := Callback;
       step_request := demo_callback "secondcode" |} ].

(** ** Variables read while a request is handled

    [SECRET_KEY], [ENV] and the AWS variables are read when the module is
    imported (l.13, l.38-46): a process that serves requests has them.
    [GITHUB_CLIENT_ID] and [GITHUB_CLIENT_SECRET] are read by the views
    only (l.62, l.101-102), where [environ[...]] raises [KeyError] for a
    variable that is not set.  [Config] describes a deployment that sets
    both; [Environ] one that may have left them out, the two fields of its
    [Config] being read only for a variable that is there. *)
Record Environ := {
  environ_config : Config;
  has_GITHUB_CLIENT_ID : bool;
  has_GITHUB_CLIENT_SECRET : bool;
}.

(** [environ[key]]. *)
Definition environ_lookup (present : bool) (key value : string) : M string :=
  if present then mret value else raise (Exn OtherException ("'" +:+ key +:+ "'")).

(** [authorize], the lookup of l.62 included. *)
Definition authorize_environ (R : Runtime) (E : Environ) (env : Env) : M rv :=
  let cfg := environ_config E in
  session_id ← try_except
    (session_id ← serializer_dumps R cfg env (uuid4 env);
     create_secret env session_id "null";;
     mret session_id)
    (fun e => abort 500 ("AWS Secret creation failed - " +:+ str e));
  client_id ← environ_lookup (has_GITHUB_CLIENT_ID E) "GITHUB_CLIENT_ID"
                (GITHUB_CLIENT_ID cfg);
  let scope := "public_repo" in
  let github_auth_url :=
    "https://github.com/login/oauth/authorize?client_id=" +:+ client_id
    +:+ "&redirect_uri=" +:+ quote (callback_url cfg env)
    +:+ "&scope=" +:+ scope +:+ "&state=" +:+ session_id in
  mret (Jsonify [("redirect_url", github_auth_url); ("session_id", session_id)]).

(** [callback], the lookups of l.101 and l.102 included. *)
Definition callback_environ (R : Runtime) (E : Environ) (env : Env) (request : Request)
    : M rv :=
  let cfg := environ_config E in
  let state := args_get "state" (args request) in
  let code := args_get "code" (args request) in
  if String.eqb state "" || String.eqb code "" then
    abort 400 "Missing state or code"
  else
    try_except_signature
      (serializer_loads R cfg env state 600;; mret tt)
      (abort 401 "Invalid or expired state");;
    session_secret ← try_except
      (get_secret_value env state)
      (fun e => abort 401 ("Unauthorized: AWS Secret fetch failed - " +:+ str e));
    match session_secret with
    | SecretBinary _ => abort 401 "Invalid state"
    | SecretString _ =>
        client_id ← environ_lookup (has_GITHUB_CLIENT_ID E) "GITHUB_CLIENT_ID"
                      (GITHUB_CLIENT_ID cfg);
        client_secret ← environ_lookup (has_GITHUB_CLIENT_SECRET E) "GITHUB_CLIENT_SECRET"
                          (GITHUB_CLIENT_SECRET cfg);
        let data := [("client_id", client_id); ("client_secret", client_secret);
                     ("code", code); ("redirect_uri", callback_url cfg env)] in
        let headers := [("Accept", "application/json")] in
        response ← try_except
          (requests_send env (RequestsPost "https://github.com/login/oauth/access_token"
                                data headers))
          (fun e => abort 401 ("GitHub access token fetch failed - " +:+ str e));
        j ← response_json response;
        access_token ← dict_get R j "access_token";
        try_except
          (put_secret_value R env state access_token)
          (fun e => abort 500 ("AWS Secret update failed - " +:+ str e));;
        mret (Tuple "Authorization complete. Feel free to return to VSCode." 200)
    end.

Definition view_environ (R : Runtime) (E : Environ) (env : Env) (rt : route)
    : Request -> M rv :=
  match rt with
  | Authorize => fun _ => authorize_environ R E env
  | Callback => callback_environ R E env
  | CheckAuthorization => check_authorization env
  | Files owner repo => get_repo R env owner repo
  end.

(** One request against the store [st], as [serve]. *)
Definition serve_environ (R : Runtime) (E : Environ) (env : Env) (rt : route)
    (request : Request) (st : gmap string secret_value)
    : Response * gmap string secret_value * list call :=
  let '(o, w) := view_environ R E env rt request
                   {| secrets := st; calls := []; g_access_token := None |} in
  (make_response o, secrets w, calls w).

(** ** Requests as Flask routes them *)

Inductive http_method := GET | HEAD | POST | OPTIONS | OtherMethod (name : string).

(** The methods under which a rule runs its view: [methods=["POST"]] for
    [/authorize] (l.54); for the other rules the default, [GET], with which
    [HEAD] comes. *)
Definition rule_allows (e : endpoint) (m : http_method) : bool :=
  match e, m with
  | Routed Authorize, POST => true
  | Routed Authorize, _ => false
  | _, GET => true
  | _, HEAD => true
  | _, _ => false
  end.

Definition dispatch_environ (R : Runtime) (E : Environ) (env : Env) (e : endpoint)
    : Request -> M rv :=
  match e with
  | Index => fun _ => hello_world
  | Routed rt => view_environ R E env rt
  end.

(** The descriptions of werkzeug's [NotFound] and [MethodNotAllowed]. *)
Definition not_found : string :=
  "The requested URL was not found on the server. If you entered the URL manually please check your spelling and try again.".

Definition method_not_allowed : string :=
  "The method is not allowed for the requested URL.".

(** A response as it leaves for a [HEAD] request: without its body. *)
Definition without_body (r : Response) : Response :=
  {| status_code := status_code r; response_body := Text "" |}.

(** One request through the application, routing included.  [target] is the
    rule the URL matches, if any.  A URL that matches no rule is answered
    404; an [OPTIONS] request to a rule is answered by Flask itself, with
    an empty 200; a request whose method the rule does not list is
    answered 405; in none of these cases a view function runs.  Every
    response passes the [after_request] hook. *)
Definition wsgi_app (R : Runtime) (E : Environ) (env : Env)
    (initial : list (string * string)) (target : option endpoint) (m : http_method)
    (request : Request) (st : gmap string secret_value)
    : Response * list (string * string) * gmap string secret_value * list call :=
  let handler : M rv :=
    match target, m with
    | None, _ => abort 404 not_found
    | Some _, OPTIONS => mret (Tuple "" 200)
    | Some e, _ =>
        if rule_allows e m then dispatch_environ R E env e request
        else abort 405 method_not_allowed
    end in
  let '(o, w) := handler {| secrets := st; calls := []; g_access_token := None |} in
  let response := make_response o in
  (match m with HEAD => without_body response | _ => response end,
   add_cors_headers initial, secrets w, calls w).

(** A deployment that sets everything but [GITHUB_CLIENT_ID]. *)
Definition demo_environ_unset : Environ :=
  {| environ_config := demo_cfg; has_GITHUB_CLIENT_ID := false;
     has_GITHUB_CLIENT_SECRET := true |}.

(** * Properties *)

(** ** Strings *)

Lemma app_cons c (a b : string) : String c a +:+ b = String c (a +:+ b).
Proof. reflexivity. Qed.

Lemma app_empty (b : string) : "" +:+ b = b.
Proof. reflexivity. Qed.

Lemma contains_app c a b : contains c (a +:+ b) = contains c a || contains c b.
Proof.
  induction a as [|d a IH]; simpl; [reflexivity|].
  rewrite IH. apply orb_assoc.
Qed.

Lemma rsplit1_absent sep s : contains sep s = false -> rsplit1 sep s = None.
Proof.
  induction s as [|c s IH]; simpl; [reflexivity|].
  intros H. apply orb_false_iff in H as [Hc Hs].
  rewrite (IH Hs), Hc. reflexivity.
Qed.

Lemma rsplit1_last sep a b :
  contains sep b = false -> rsplit1 sep (a +:+ String sep b) = Some (a, b).
Proof.
  intros Hb. induction a as [|c a IH]; simpl.
  - rewrite (rsplit1_absent _ _ Hb), Ascii.eqb_refl. reflexivity.
  - rewrite IH. reflexivity.
Qed.

Lemma rsplit1_None sep s : rsplit1 sep s = None -> contains sep s = false.
Proof.
  induction s as [|c s IH]; simpl; [reflexivity|].
  destruct (rsplit1 sep s) as [[before after]|]; [discriminate|].
  destruct (Ascii.eqb c sep); [discriminate|].
  intros _. now apply IH.
Qed.

Lemma rsplit1_Some sep s a b :
  rsplit1 sep s = Some (a, b) -> s = a +:+ String sep b /\ contains sep b = false.
Proof.
  revert a. induction s as [|c s IH]; simpl; intros a; [discriminate|].
  destruct (rsplit1 sep s) as [[before after]|] eqn:E.
  - intros [= <- <-]. destruct (IH before eq_refl) as [-> Hb]. split; [reflexivity|exact Hb].
  - destruct (Ascii.eqb_spec c sep) as [->|_]; [|discriminate].
    intros [= <- <-]. split; [reflexivity|]. now apply rsplit1_None.
Qed.

Lemma split_absent sep s : contains sep s = false -> split sep s = [s].
Proof.
  induction s as [|c s IH]; simpl; [reflexivity|].
  intros H. apply orb_false_iff in H as [Hc Hs].
  rewrite Hc, (IH Hs). reflexivity.
Qed.

Lemma split_first sep a b :
  contains sep a = false -> split sep (a +:+ String sep b) = a :: split sep b.
Proof.
  induction a as [|c a IH]; simpl.
  - intros _. rewrite Ascii.eqb_refl. reflexivity.
  - intros H. apply orb_false_iff in H as [Hc Ha].
    rewrite Hc, (IH Ha). reflexivity.
Qed.

Lemma app_assoc_string (a b c : string) : (a +:+ b) +:+ c = a +:+ (b +:+ c).
Proof. induction a as [|x a IH]; [reflexivity | rewrite !app_cons; f_equal; exact IH]. Qed.

(** Induction over a string three characters at a time, the way base64
    consumes it. *)
Lemma string_ind3 (P : string -> Prop) :
  P "" ->
  (forall a, P (String a "")) ->
  (forall a b, P (String a (String b ""))) ->
  (forall a b c s, P s -> P (String a (String b (String c s)))) ->
  forall s, P s.
Proof.
  intros H0 H1 H2 H3.
  assert (forall s, P s /\ (forall a, P (String a s)) /\ (forall a b, P (String a (String b s)))) as H.
  { induction s as [|c s (IHs & IHs1 & IHs2)]; [now auto|].
    split; [apply IHs1|]. split; [intros a; apply IHs2|].
    intros a b. apply H3, IHs. }
  intros s. apply H.
Qed.

(** ** base64 *)

Lemma get_contains n s c : String.get n s = Some c -> contains c s = true.
Proof.
  revert n. induction s as [|d s IH]; intros n; simpl; [discriminate|].
  destruct n as [|n].
  - intros [= ->]. now rewrite Ascii.eqb_refl.
  - intros H. rewrite (IH _ H). apply orb_true_r.
Qed.

Lemma base64_char_alphabet i : contains (base64_char i) base64_alphabet = true.
Proof.
  unfold base64_char.
  destruct (String.get (N.to_nat i) base64_alphabet) eqn:E.
  - eapply get_contains, E.
  - reflexivity.
Qed.

(** The encoder only emits characters of its alphabet. *)
Lemma base64_encode_alphabet c s :
  contains c base64_alphabet = false -> contains c (base64_encode s) = false.
Proof.
  intros Hc.
  assert (forall i, Ascii.eqb (base64_char i) c = false) as Hne.
  { intros i. destruct (Ascii.eqb_spec (base64_char i) c) as [<-|]; [|reflexivity].
    rewrite base64_char_alphabet in Hc. discriminate. }
  induction s as [| a | a b | a b d s IH] using string_ind3;
    cbn [base64_encode contains]; rewrite ?Hne, ?IH; reflexivity.
Qed.

Lemma base64_encode_no_sep s : contains sep (base64_encode s) = false.
Proof. apply base64_encode_alphabet. reflexivity. Qed.

Lemma base64_encode_no_space s : contains " " (base64_encode s) = false.
Proof. apply base64_encode_alphabet. reflexivity. Qed.

Lemma base64_encode_no_amp s : contains "&" (base64_encode s) = false.
Proof. apply base64_encode_alphabet. reflexivity. Qed.

(** Linear arithmetic with division and remainder by constants. *)
Ltac divlia := zify; Z.to_euclidean_division_equations; lia.

Lemma find_char_base64 i : (i < 64)%N -> base64_index (base64_char i) = Some i.
Proof.
  intros H. assert (N.to_nat i < 64)%nat as Hn by divlia.
  rewrite <- (N2Nat.id i). revert Hn. generalize (N.to_nat i) as n. clear.
  intros n Hn.
  do 64 (destruct n as [|n]; [reflexivity|]). lia.
Qed.

Lemma base64_decode_strict_encode s : base64_decode_strict (base64_encode s) = Some s.
Proof.
  induction s as [| a | a b | a b c s IH] using string_ind3.
  - reflexivity.
  - pose proof (N_ascii_bounded a) as Ha.
    cbn [base64_encode base64_decode_strict].
    rewrite !find_char_base64 by divlia.
    replace (_ + _)%N with (N_of_ascii a) by divlia.
    now rewrite ascii_N_embedding.
  - pose proof (N_ascii_bounded a) as Ha. pose proof (N_ascii_bounded b) as Hb.
    cbn [base64_encode base64_decode_strict].
    rewrite !find_char_base64 by divlia.
    do 2 f_equal; [|do 2 f_equal]; rewrite <- ascii_N_embedding; f_equal; divlia.
  - pose proof (N_ascii_bounded a) as Ha. pose proof (N_ascii_bounded b) as Hb.
    pose proof (N_ascii_bounded c) as Hc.
    cbn [base64_encode base64_decode_strict].
    rewrite !find_char_base64 by divlia. rewrite IH.
    do 2 f_equal; [|f_equal; [|f_equal]]; rewrite <- ascii_N_embedding; f_equal; divlia.
Qed.

(** ** Timestamps as bytes *)

Lemma length_pack_be k n : String.length (pack_be k n) = k.
Proof. induction k as [|k IH]; simpl; [reflexivity | now rewrite IH]. Qed.

Lemma unpack_pack_be k n acc :
  unpack_be acc (pack_be k n) = (acc * 256 ^ N.of_nat k + n mod 256 ^ N.of_nat k)%N.
Proof.
  revert acc. induction k as [|k IH]; intros acc.
  - simpl. rewrite N.mod_1_r. lia.
  - cbn [pack_be unpack_be]. rewrite IH.
    rewrite N_ascii_embedding by (apply N.mod_lt; lia).
    rewrite Nat2N.inj_succ, N.pow_succ_r'.
    rewrite (N.mul_comm 256 (256 ^ N.of_nat k)).
    rewrite (N.Div0.mod_mul_r n (256 ^ N.of_nat k) 256). lia.
Qed.

Lemma unpack_lstrip_zero s : unpack_be 0 (lstrip_zero s) = unpack_be 0 s.
Proof.
  induction s as [|c s IH]; [reflexivity|].
  cbn [lstrip_zero]. destruct (Ascii.eqb_spec c zero) as [->|]; [|reflexivity].
  rewrite IH. reflexivity.
Qed.

Lemma length_lstrip_zero s : (String.length (lstrip_zero s) <= String.length s)%nat.
Proof.
  induction s as [|c s IH]; [reflexivity|].
  cbn [lstrip_zero]. destruct (Ascii.eqb c zero); simpl; lia.
Qed.

(** [bytes_to_int] reads back what [int_to_bytes] wrote. *)
Lemma bytes_to_int_to_bytes n raw : int_to_bytes n = Some raw -> bytes_to_int raw = Some n.
Proof.
  unfold int_to_bytes, bytes_to_int.
  destruct (N.ltb_spec n (2 ^ 64)) as [Hn|]; [|discriminate].
  intros Hraw. assert (raw = lstrip_zero (pack_be 8 n)) as -> by congruence. clear Hraw.
  pose proof (length_lstrip_zero (pack_be 8 n)) as Hlen.
  rewrite length_pack_be in Hlen.
  destruct (Nat.leb_spec (String.length (lstrip_zero (pack_be 8 n))) 8); [|lia].
  rewrite unpack_lstrip_zero, unpack_pack_be.
  f_equal. change (256 ^ N.of_nat 8)%N with (2 ^ 64)%N.
  rewrite N.mod_small by exact Hn. lia.
Qed.

(** ** The serializer *)

Section SerializerFacts.
Context (R : Runtime) (key : string).

Lemma get_signature_no_sep value : contains sep (get_signature R key value) = false.
Proof. apply base64_encode_no_sep. Qed.

(** A payload that does not start with the compression marker is decoded
    as it is. *)
Lemma load_payload_plain payload :
  contains sep payload = false ->
  load_payload R payload = base64_decode R payload ≫= json_loads R.
Proof.
  destruct payload as [|c rest]; [reflexivity|].
  intros H. simpl in H. apply orb_false_iff in H as [H _].
  destruct c as [[] [] [] [] [] [] [] []]; try reflexivity.
  discriminate H.
Qed.

Lemma dumps_shape now id token :
  dumps R key now id = Return token ->
  exists raw, int_to_bytes now = Some raw /\
    let value := dump_payload R id +:+ String sep (base64_encode raw) in
    token = value +:+ String sep (get_signature R key value).
Proof.
  unfold dumps, TimestampSigner_sign.
  destruct (int_to_bytes now) as [raw|]; [|discriminate].
  intros [= <-]. exists raw. split; reflexivity.
Qed.

Lemma dumps_returns now id :
  (now < 2 ^ 64)%N -> exists token, dumps R key now id = Return token.
Proof.
  intros H. unfold dumps, TimestampSigner_sign, int_to_bytes.
  destruct (N.ltb_spec now (2 ^ 64)); [|lia]. eexists. reflexivity.
Qed.

Lemma dump_payload_no_space id : contains " " (dump_payload R id) = false.
Proof.
  unfold dump_payload. destruct (_ <? _)%Z; simpl; apply base64_encode_no_space.
Qed.

Lemma dump_payload_no_amp id : contains "&" (dump_payload R id) = false.
Proof.
  unfold dump_payload. destruct (_ <? _)%Z; simpl; apply base64_encode_no_amp.
Qed.

Context (HR : RuntimeOk R).

Lemma verify_signature_own value : verify_signature R key value (get_signature R key value) = true.
Proof.
  unfold verify_signature, get_signature.
  rewrite (base64_decode_encode R HR). apply String.eqb_refl.
Qed.

Lemma Signer_unsign_signed value :
  Signer_unsign R key (value +:+ String sep (get_signature R key value)) = Some value.
Proof.
  unfold Signer_unsign.
  rewrite rsplit1_last by apply get_signature_no_sep.
  now rewrite verify_signature_own.
Qed.

Lemma load_dump_payload id : load_payload R (dump_payload R id) = Some (JStr id).
Proof.
  unfold dump_payload. destruct (_ <? _)%Z.
  - cbn [load_payload]. rewrite (base64_decode_encode R HR). simpl.
    rewrite (zlib_decompress_compress R HR). simpl. apply (json_loads_dumps R HR).
  - rewrite load_payload_plain by apply base64_encode_no_sep.
    rewrite (base64_decode_encode R HR). simpl. apply (json_loads_dumps R HR).
Qed.

(** The signer accepts what it signed at [t0] for as long as the age stays
    within [max_age]. *)
Lemma unsign_minted t0 now max_age id token :
  dumps R key t0 id = Return token ->
  (t0 <= now)%N -> (Z.of_N now - Z.of_N t0 <= max_age)%Z ->
  TimestampSigner_unsign R key now max_age token = Return (dump_payload R id).
Proof.
  intros Hd Hle Hage. apply dumps_shape in Hd as (raw & Hraw & ->).
  unfold TimestampSigner_unsign. cbv zeta.
  rewrite Signer_unsign_signed.
  rewrite rsplit1_last by apply base64_encode_no_sep.
  rewrite (base64_decode_encode R HR). simpl.
  rewrite (bytes_to_int_to_bytes _ _ Hraw).
  destruct (Z.ltb_spec max_age (Z.of_N now - Z.of_N t0)); [lia|].
  destruct (Z.ltb_spec (Z.of_N now - Z.of_N t0) 0); [lia|]. reflexivity.
Qed.

(** After [max_age] it raises [SignatureExpired]. *)
Lemma unsign_minted_expired t0 now max_age id token :
  dumps R key t0 id = Return token ->
  (max_age < Z.of_N now - Z.of_N t0)%Z ->
  TimestampSigner_unsign R key now max_age token
  = Raise (Exn SignatureExpired "Signature age > max_age seconds").
Proof.
  intros Hd Hage. apply dumps_shape in Hd as (raw & Hraw & ->).
  unfold TimestampSigner_unsign. cbv zeta.
  rewrite Signer_unsign_signed.
  rewrite rsplit1_last by apply base64_encode_no_sep.
  rewrite (base64_decode_encode R HR). simpl.
  rewrite (bytes_to_int_to_bytes _ _ Hraw).
  destruct (Z.ltb_spec max_age (Z.of_N now - Z.of_N t0)); [reflexivity|lia].
Qed.

End SerializerFacts.

Lemma json_plain_roundtrip s : json_loads_plain (json_dumps_plain s) = Some (JStr s).
Proof.
  unfold json_loads_plain, json_dumps_plain.
  rewrite rsplit1_last by reflexivity. reflexivity.
Qed.

Lemma reference_runtime_ok : RuntimeOk reference_runtime.
Proof.
  split; simpl.
  - apply base64_decode_strict_encode.
  - reflexivity.
  - apply json_plain_roundtrip.
Qed.

(** C2: a token minted from an identifier at [t0] verifies, at any later
    time whose distance to [t0] stays within [max_age], to that very
    identifier. *)
Theorem mint_verify_roundtrip R key t0 now max_age id :
  RuntimeOk R ->
  (t0 < 2 ^ 64)%N -> (t0 <= now)%N -> (Z.of_N now - Z.of_N t0 <= max_age)%Z ->
  exists token,
    dumps R key t0 id = Return token /\
    loads R key now max_age token = Return (JStr id).
Proof.
  intros HR Ht0 Hle Hage.
  destruct (dumps_returns R key t0 id Ht0) as [token Hd].
  exists token. split; [exact Hd|].
  unfold loads. rewrite (unsign_minted R key HR _ _ _ _ _ Hd Hle Hage).
  now rewrite (load_dump_payload R HR).
Qed.

Lemma mint_verify_roundtrip_witness :
  exists token,
    dumps reference_runtime "s3cr3t" 1700000000 "f47ac10b-58cc-4372-a567-0e02b2c3d479"
      = Return token /\
    loads reference_runtime "s3cr3t" 1700000599 600 token
      = Return (JStr "f47ac10b-58cc-4372-a567-0e02b2c3d479").
Proof.
  apply (mint_verify_roundtrip reference_runtime "s3cr3t" 1700000000 1700000599 600).
  - apply reference_runtime_ok.
  - reflexivity.
  - discriminate.
  - discriminate.
Defined.


(** ** The callback step *)

Lemma args_get_absent key a : (forall v, ~ In (key, v) a) -> args_get key a = "".
Proof.
  induction a as [|[k v] a IH]; intros H; simpl; [reflexivity|].
  destruct (String.eqb_spec k key) as [->|].
  - exfalso. apply (H v). now left.
  - apply IH. intros v' Hin. apply (H v'). now right.
Qed.

(** C5: a callback whose [state] or [code] is absent or empty aborts with
    400 at once, whatever the other parameter is: no library call is made
    and the store is left as it was. *)
Theorem callback_missing_parameter R cfg env request w :
  args_get "state" (args request) = "" \/ args_get "code" (args request) = "" ->
  callback R cfg env request w = (Aborted 400 "Missing state or code", w).
Proof.
  intros [H|H]; unfold callback; rewrite H; [reflexivity|].
  destruct (String.eqb _ ""); reflexivity.
Qed.

Lemma callback_missing_parameter_witness :
  callback reference_runtime demo_cfg (demo_env 1700000000)
    {| args := [("code", "x")]; authorization := None |} empty_world
  = (Aborted 400 "Missing state or code", empty_world)
  /\
  callback reference_runtime demo_cfg (demo_env 1700000000)
    {| args := [("state", demo_token); ("code", "")]; authorization := None |} empty_world
  = (Aborted 400 "Missing state or code", empty_world).
Proof.
  split.
  - apply callback_missing_parameter. left. reflexivity.
  - apply callback_missing_parameter. right. reflexivity.
Defined.

Section CallbackFacts.
Context (R : Runtime) (cfg : Config) (env : Env) (request : Request).
Let state := args_get "state" (args request).
Let code := args_get "code" (args request).
Context (Hstate : state <> "") (Hcode : code <> "").

Lemma callback_rejects_state w e :
  loads R (SECRET_KEY cfg) (time_now env) 600 state = Raise e ->
  bad_signature e = true ->
  callback R cfg env request w
  = (Aborted 401 "Invalid or expired state", log (SerializerLoads state 600) w).
Proof.
  intros Hl He. unfold callback. fold state code.
  destruct (String.eqb_spec state ""); [contradiction|].
  destruct (String.eqb_spec code ""); [contradiction|].
  cbn. unfold serializer_loads, try_except_signature, mbind, M_bind, record, lift.
  rewrite Hl, He. reflexivity.
Qed.
End CallbackFacts.

Ltac munfold :=
  unfold callback, authorize, auth_wrapper, check_authorization, get_repo, get_repo_body,
    serializer_loads, serializer_dumps, create_secret, get_secret_value,
    put_secret_value, requests_send, response_json, dict_get, subscript,
    try_except, try_except_signature, abort, raise, invalid_length, lift, record,
    get_secrets,
    set_secret, g_set, g_pop, mbind, M_bind, mret, M_ret in *.

Ltac mcase :=
  match goal with
  | |- context [match ?x with _ => _ end] =>
      lazymatch x with
      | context [match _ with _ => _ end] => fail
      | _ => destruct x eqn:?
      end
  end.

Section CallbackLookup.
Context (R : Runtime) (cfg : Config) (env : Env) (request : Request).
Let state := args_get "state" (args request).
Let code := args_get "code" (args request).
Context (Hstate : state <> "") (Hcode : code <> "").

Lemma callback_looks_up_state w p :
  loads R (SECRET_KEY cfg) (time_now env) 600 state = Return p ->
  exists rest,
    calls (callback R cfg env request w).2
    = (calls w ++ SerializerLoads state 600 :: GetSecretValue state :: rest)%list.
Proof.
  intros Hl. unfold callback. fold state code.
  destruct (String.eqb_spec state ""); [contradiction|].
  destruct (String.eqb_spec code ""); [contradiction|].
  munfold. cbn. rewrite Hl. cbn.
  repeat (mcase; cbn).
  all: rewrite <- ?app_assoc; cbn; eexists; reflexivity.
Qed.
End CallbackLookup.

(** ** The initiate step *)

Lemma contains_sep_nonempty s b : contains sep (s +:+ String sep b) = true.
Proof. rewrite contains_app. simpl. apply orb_true_r. Qed.

Section AuthorizeFacts.
Context (R : Runtime) (cfg : Config) (env : Env).

Lemma authorize_inv w v w' :
  authorize R cfg env w = (Return v, w') ->
  exists token,
    dumps R (SECRET_KEY cfg) (time_now env) (uuid4 env) = Return token /\
    secrets w !! token = None /\
    v = Jsonify [("redirect_url", redirect_url cfg env token); ("session_id", token)] /\
    w' = {| secrets := <[token := SecretString "null"]> (secrets w);
            calls := (calls w ++ [SerializerDumps (uuid4 env); CreateSecret token "null"])%list;
            g_access_token := g_access_token w |}.
Proof.
  munfold. cbn.
  destruct (dumps R (SECRET_KEY cfg) (time_now env) (uuid4 env)) as [token| |] eqn:Hd;
    cbn; try discriminate.
  repeat (mcase; cbn); try discriminate.
  intros [= <- <-]. exists token. rewrite <- app_assoc. repeat split; try reflexivity.
  assumption.
Qed.

Lemma authorize_returns w token :
  dumps R (SECRET_KEY cfg) (time_now env) (uuid4 env) = Return token ->
  aws_error env (CreateSecret token "null") = None ->
  secrets w !! token = None ->
  authorize R cfg env w
  = (Return (Jsonify [("redirect_url", redirect_url cfg env token); ("session_id", token)]),
     {| secrets := <[token := SecretString "null"]> (secrets w);
        calls := (calls w ++ [SerializerDumps (uuid4 env); CreateSecret token "null"])%list;
        g_access_token := g_access_token w |}).
Proof.
  intros Hd Ha Hs. munfold. cbn. rewrite Hd. cbn.
  destruct (String.eqb_spec token "") as [->|_].
  - apply dumps_shape in Hd as (raw & _ & Hd). cbv zeta in Hd.
    destruct (dump_payload R (uuid4 env) +:+ String sep (base64_encode raw)); discriminate Hd.
  - rewrite Ha. cbn. rewrite Hs. cbn. rewrite <- app_assoc. reflexivity.
Qed.
End AuthorizeFacts.

Lemma token_not_identifier (value sig id : string) :
  contains sep id = false -> value +:+ String sep sig <> id.
Proof.
  intros Hid <-. rewrite contains_sep_nonempty in Hid. discriminate.
Qed.

Lemma token_no_amp R key raw id :
  contains "&"
    ((dump_payload R id +:+ String sep (base64_encode raw))
     +:+ String sep (get_signature R key (dump_payload R id +:+ String sep (base64_encode raw))))
  = false.
Proof.
  rewrite !contains_app. cbn [contains].
  rewrite dump_payload_no_amp. unfold get_signature.
  rewrite !base64_encode_no_amp. reflexivity.
Qed.

Lemma token_no_space R key raw id :
  contains " "
    ((dump_payload R id +:+ String sep (base64_encode raw))
     +:+ String sep (get_signature R key (dump_payload R id +:+ String sep (base64_encode raw))))
  = false.
Proof.
  rewrite !contains_app. cbn [contains].
  rewrite dump_payload_no_space. unfold get_signature.
  rewrite !base64_encode_no_space. reflexivity.
Qed.

(** C9: on every successful [POST /authorize] one string serves three
    times: it is the [session_id] of the JSON body, the value of the
    [state] parameter that ends the [redirect_url], and the name of the
    secret created with the sentinel.  That string is the signed
    serialization [payload.timestamp.signature] of the fresh identifier; it
    holds no [&] that could end the parameter early, and it differs from the
    identifier itself, which holds no separator. *)
Theorem authorize_session_id_is_token R cfg env w v w' :
  authorize R cfg env w = (Return v, w') ->
  exists token raw,
    int_to_bytes (time_now env) = Some raw /\
    (let value := dump_payload R (uuid4 env) +:+ String sep (base64_encode raw) in
     token = value +:+ String sep (get_signature R (SECRET_KEY cfg) value)) /\
    dumps R (SECRET_KEY cfg) (time_now env) (uuid4 env) = Return token /\
    v = Jsonify
          [("redirect_url",
            "https://github.com/login/oauth/authorize?client_id=" +:+ GITHUB_CLIENT_ID cfg
            +:+ "&redirect_uri=" +:+ quote (callback_url cfg env)
            +:+ "&scope=public_repo" +:+ "&state=" +:+ token);
           ("session_id", token)] /\
    calls w' = (calls w ++ [SerializerDumps (uuid4 env); CreateSecret token "null"])%list /\
    secrets w !! token = None /\
    secrets w' = <[token := SecretString "null"]> (secrets w) /\
    contains "&" token = false /\
    (contains sep (uuid4 env) = false -> token <> uuid4 env).
Proof.
  intros H. apply authorize_inv in H as (token & Hd & Hfresh & -> & ->).
  destruct (dumps_shape _ _ _ _ _ Hd) as (raw & Hraw & Htok). cbv zeta in Htok.
  exists token, raw. repeat split; try assumption; try reflexivity.
  - subst token. apply token_no_amp.
  - subst token. apply token_not_identifier.
Qed.

Lemma demo_dumps :
  dumps reference_runtime "s3cr3t" 1700000000 demo_uuid = Return demo_token.
Proof. vm_compute. reflexivity. Qed.

Lemma demo_authorize :
  authorize reference_runtime demo_cfg (demo_env 1700000000) empty_world
  = (Return (Jsonify [("redirect_url", redirect_url demo_cfg (demo_env 1700000000) demo_token);
                      ("session_id", demo_token)]),
     {| secrets := <[demo_token := SecretString "null"]> ∅;
        calls := [SerializerDumps demo_uuid; CreateSecret demo_token "null"];
        g_access_token := None |}).
Proof.
  apply (authorize_returns reference_runtime demo_cfg (demo_env 1700000000) empty_world).
  - exact demo_dumps.
  - reflexivity.
  - apply lookup_empty.
Qed.

Lemma authorize_session_id_is_token_witness :
  exists token raw,
    int_to_bytes 1700000000 = Some raw /\
    (let value := dump_payload reference_runtime demo_uuid +:+ String sep (base64_encode raw) in
     token = value +:+ String sep (get_signature reference_runtime "s3cr3t" value)) /\
    dumps reference_runtime "s3cr3t" 1700000000 demo_uuid = Return token /\
    Jsonify [("redirect_url", redirect_url demo_cfg (demo_env 1700000000) demo_token);
             ("session_id", demo_token)]
    = Jsonify
          [("redirect_url",
            "https://github.com/login/oauth/authorize?client_id=" +:+ "Iv1.8a61f9b3a7aba766"
            +:+ "&redirect_uri=" +:+ quote (callback_url demo_cfg (demo_env 1700000000))
            +:+ "&scope=public_repo" +:+ "&state=" +:+ token);
           ("session_id", token)] /\
    [SerializerDumps demo_uuid; CreateSecret demo_token "null"]
    = ([] ++ [SerializerDumps demo_uuid; CreateSecret token "null"])%list /\
    (∅ : gmap string secret_value) !! token = None /\
    <[demo_token := SecretString "null"]> (∅ : gmap string secret_value)
    = <[token := SecretString "null"]> ∅ /\
    contains "&" token = false /\
    (contains sep demo_uuid = false -> token <> demo_uuid).
Proof.
  exact (authorize_session_id_is_token reference_runtime demo_cfg (demo_env 1700000000)
           empty_world _ _ demo_authorize).
Defined.

Example demo_redirect_url :
  redirect_url demo_cfg (demo_env 1700000000) demo_token
  = "https://github.com/login/oauth/authorize?client_id=Iv1.8a61f9b3a7aba766&redirect_uri=http%3A//localhost%3A8080/callback&scope=public_repo&state=ImY0N2FjMTBiLTU4Y2MtNDM3Mi1hNTY3LTBlMDJiMmMzZDQ3OSI.ZVPxAA.JwZkpQ".
Proof. vm_compute. reflexivity. Qed.

(** C1, as stated, fails: the secret that [authorize] creates is not named
    by the identifier embedded in the token.  In the reference deployment
    the identifier is [demo_uuid] and the secret is named [demo_token]. *)
Lemma store_key_is_identifier_counterexample :
  ~ (forall R cfg env w v w' name value,
        authorize R cfg env w = (Return v, w') ->
        In (CreateSecret name value) (calls w') ->
        name = uuid4 env).
Proof.
  intros H.
  specialize (H reference_runtime demo_cfg (demo_env 1700000000) empty_world _ _
                demo_token "null" demo_authorize).
  cbn in H. discriminate H. right. left. reflexivity.
Qed.

(** C1, amended: the key under which a Secret Record is stored is the
    signed token itself, the string that [dumps] returns for the fresh
    identifier, and never the identifier when that holds no separator; the
    callback step looks the record up under its [state] parameter as
    received, right after the verification of [state] and whatever payload
    the verification returned. *)
Theorem store_key_is_signed_token R cfg env :
  (forall w v w',
      authorize R cfg env w = (Return v, w') ->
      exists token,
        dumps R (SECRET_KEY cfg) (time_now env) (uuid4 env) = Return token /\
        calls w' = (calls w ++ [SerializerDumps (uuid4 env); CreateSecret token "null"])%list /\
        secrets w' = <[token := SecretString "null"]> (secrets w) /\
        (contains sep (uuid4 env) = false -> token <> uuid4 env)) /\
  (forall request w payload,
      args_get "state" (args request) <> "" ->
      args_get "code" (args request) <> "" ->
      loads R (SECRET_KEY cfg) (time_now env) 600 (args_get "state" (args request))
        = Return payload ->
      exists rest,
        calls (callback R cfg env request w).2
        = (calls w ++ SerializerLoads (args_get "state" (args request)) 600
                   :: GetSecretValue (args_get "state" (args request)) :: rest)%list).
Proof.
  split.
  - intros w v w' H. apply authorize_inv in H as (token & Hd & _ & _ & ->).
    exists token. repeat split; try assumption; try reflexivity.
    destruct (dumps_shape _ _ _ _ _ Hd) as (raw & _ & ->).
    apply token_not_identifier.
  - intros request w payload Hstate Hcode Hl.
    eapply callback_looks_up_state; eassumption.
Qed.

(** ** Rejected tokens *)

Lemma token_timestamp_minted R key t0 id token :
  RuntimeOk R ->
  dumps R key t0 id = Return token -> token_timestamp R key token = Some t0.
Proof.
  intros HR Hd. apply dumps_shape in Hd as (raw & Hraw & ->).
  unfold token_timestamp. rewrite (Signer_unsign_signed R key HR).
  rewrite rsplit1_last by apply base64_encode_no_sep.
  rewrite (base64_decode_encode R HR). simpl.
  apply bytes_to_int_to_bytes, Hraw.
Qed.

Lemma loads_expired R key now max_age s t :
  token_timestamp R key s = Some t ->
  (max_age < Z.of_N now - Z.of_N t)%Z ->
  loads R key now max_age s = Raise (Exn SignatureExpired "Signature age > max_age seconds").
Proof.
  unfold token_timestamp, loads, TimestampSigner_unsign.
  destruct (Signer_unsign R key s) as [result|]; [|discriminate].
  destruct (rsplit1 sep result) as [[value ts]|]; [|discriminate].
  intros -> Hage.
  destruct (Z.ltb_spec max_age (Z.of_N now - Z.of_N t)); [reflexivity|lia].
Qed.

Lemma loads_unsigned R key now max_age s :
  Signer_unsign R key s = None ->
  loads R key now max_age s = Raise (Exn BadSignature "Signature does not match").
Proof. intros H. unfold loads, TimestampSigner_unsign. now rewrite H. Qed.

Lemma Signer_unsign_no_sep R key s : contains sep s = false -> Signer_unsign R key s = None.
Proof. intros H. unfold Signer_unsign. now rewrite rsplit1_absent. Qed.

Lemma Signer_unsign_tampered R key value value' :
  RuntimeOk R ->
  signature R key value' <> signature R key value ->
  Signer_unsign R key (value' +:+ String sep (get_signature R key value)) = None.
Proof.
  intros HR Hne. unfold Signer_unsign.
  rewrite rsplit1_last by apply get_signature_no_sep.
  unfold verify_signature, get_signature. rewrite (base64_decode_encode R HR).
  destruct (String.eqb_spec (signature R key value) (signature R key value')) as [E|_];
    [|reflexivity].
  contradiction Hne. now symmetry.
Qed.

(** The signature check passes on exactly the texts [value.sig] whose
    last segment decodes to the digest of what precedes it. *)
Lemma Signer_unsign_spec R key s value :
  Signer_unsign R key s = Some value <->
  exists sig, s = value +:+ String sep sig /\ contains sep sig = false /\
              base64_decode R sig = Some (signature R key value).
Proof.
  unfold Signer_unsign, verify_signature. split.
  - destruct (rsplit1 sep s) as [[v sig]|] eqn:E; [|discriminate].
    apply rsplit1_Some in E as [-> Hsig].
    destruct (base64_decode R sig) as [raw|] eqn:Hdec; [|discriminate].
    destruct (String.eqb_spec raw (signature R key v)) as [->|_]; [|discriminate].
    intros [= <-]. exists sig. auto.
  - intros (sig & -> & Hsig & Hdec).
    rewrite (rsplit1_last _ _ _ Hsig), Hdec, String.eqb_refl. reflexivity.
Qed.

Lemma Signer_unsign_None R key s :
  ~ (exists value sig, s = value +:+ String sep sig /\ contains sep sig = false /\
                       base64_decode R sig = Some (signature R key value)) ->
  Signer_unsign R key s = None.
Proof.
  intros H. destruct (Signer_unsign R key s) as [value|] eqn:E; [|reflexivity].
  apply Signer_unsign_spec in E as (sig & E). contradiction H. eauto.
Qed.

(** C3, as stated, fails: in the reference deployment [altered_token]
    differs from the minted [demo_token] in its last character and
    verifies all the same, returning the identifier. *)
Lemma altered_token_verifies_counterexample :
  ~ (forall R key t0 now max_age id token s,
        RuntimeOk R -> dumps R key t0 id = Return token ->
        String.length s = String.length token -> s <> token ->
        exists msg, loads R key now max_age s = Raise (Exn BadSignature msg)).
Proof.
  intros H.
  destruct (H reference_runtime "s3cr3t" 1700000000%N 1700000100%N 600%Z demo_uuid
              demo_token altered_token reference_runtime_ok demo_dumps eq_refl)
    as [msg Hmsg]; [discriminate|].
  vm_compute in Hmsg. discriminate.
Qed.

Example altered_token_loads :
  loads reference_runtime "s3cr3t" 1700000100 600 altered_token = Return (JStr demo_uuid)
  /\ base64_decode reference_runtime "JwZkpR" = base64_decode reference_runtime "JwZkpQ".
Proof. split; vm_compute; reflexivity. Qed.

(** C3, amended: [loads] raises [SignatureExpired] for every correctly
    signed token whose embedded timestamp lies more than [max_age] behind
    the clock, a minted token carrying the time of its minting.  The
    signature check passes on exactly the texts [value.sig] whose last
    segment decodes to the digest of [value], so it looks at the decoded
    signature and not at its characters; [loads] raises [BadSignature] for
    every other string, among them every string without a separator and
    every signed text whose signed part was replaced by one of another
    digest.  On an expired and on a rejected [state], [callback] aborts
    with 401 right after the verification, the store untouched. *)
Theorem verify_rejects R cfg env :
  let key := SECRET_KEY cfg in
  let now := time_now env in
  let signed (s : string) :=
    exists value sig, s = value +:+ String sep sig /\ contains sep sig = false /\
                      base64_decode R sig = Some (signature R key value) in
  (forall s max_age t,
      token_timestamp R key s = Some t -> (max_age < Z.of_N now - Z.of_N t)%Z ->
      exists msg, loads R key now max_age s = Raise (Exn SignatureExpired msg)) /\
  (RuntimeOk R ->
   forall t0 id token,
     dumps R key t0 id = Return token -> token_timestamp R key token = Some t0) /\
  (forall s value,
      Signer_unsign R key s = Some value <->
      exists sig, s = value +:+ String sep sig /\ contains sep sig = false /\
                  base64_decode R sig = Some (signature R key value)) /\
  (forall s max_age,
      ~ signed s ->
      exists msg, loads R key now max_age s = Raise (Exn BadSignature msg)) /\
  (forall s, contains sep s = false -> ~ signed s) /\
  (RuntimeOk R ->
   forall value value',
     signature R key value' <> signature R key value ->
     ~ signed (value' +:+ String sep (get_signature R key value))) /\
  (forall request w,
      let state := args_get "state" (args request) in
      state <> "" -> args_get "code" (args request) <> "" ->
      (exists t, token_timestamp R key state = Some t /\ (600 < Z.of_N now - Z.of_N t)%Z)
      \/ ~ signed state ->
      callback R cfg env request w
      = (Aborted 401 "Invalid or expired state", log (SerializerLoads state 600) w)).
Proof.
  cbv zeta.
  assert (Hnone : forall s,
             Signer_unsign R (SECRET_KEY cfg) s = None ->
             ~ (exists value sig,
                   s = value +:+ String sep sig /\ contains sep sig = false /\
                   base64_decode R sig = Some (signature R (SECRET_KEY cfg) value))).
  { intros s Hs (value & sig & H).
    assert (Signer_unsign R (SECRET_KEY cfg) s = Some value) as E
      by (apply Signer_unsign_spec; eauto).
    congruence. }
  split; [|split; [|split; [|split; [|split; [|split]]]]].
  - intros s max_age t Ht Hage. eexists. eapply loads_expired; eassumption.
  - intros HR t0 id token. apply token_timestamp_minted, HR.
  - intros s value. apply Signer_unsign_spec.
  - intros s max_age Hs. eexists. apply loads_unsigned, Signer_unsign_None, Hs.
  - intros s Hs. apply Hnone, Signer_unsign_no_sep, Hs.
  - intros HR value value' Hne. apply Hnone, Signer_unsign_tampered; assumption.
  - intros request w Hstate Hcode [(t & Ht & Hage)|Hs].
    + eapply callback_rejects_state; try assumption.
      * eapply loads_expired; eassumption.
      * reflexivity.
    + eapply callback_rejects_state; try assumption.
      * apply loads_unsigned, Signer_unsign_None, Hs.
      * reflexivity.
Qed.

(** Scenario C, and the minted token of the reference deployment presented
    601 seconds after its minting. *)
Lemma verify_rejects_witness :
  callback reference_runtime demo_cfg (demo_env 1700000000)
    {| args := [("state", "garbage"); ("code", "x")]; authorization := None |} empty_world
  = (Aborted 401 "Invalid or expired state", log (SerializerLoads "garbage" 600) empty_world)
  /\
  callback reference_runtime demo_cfg (demo_env 1700000601)
    {| args := [("state", demo_token); ("code", "validcode")]; authorization := None |}
    empty_world
  = (Aborted 401 "Invalid or expired state", log (SerializerLoads demo_token 600) empty_world).
Proof.
  pose proof (verify_rejects reference_runtime demo_cfg (demo_env 1700000000))
    as (_ & _ & _ & _ & Hsep & _ & Hcb).
  pose proof (verify_rejects reference_runtime demo_cfg (demo_env 1700000601))
    as (_ & Hts & _ & _ & _ & _ & Hcb').
  split.
  - apply (Hcb {| args := [("state", "garbage"); ("code", "x")]; authorization := None |});
      [discriminate | discriminate |].
    right. apply Hsep. reflexivity.
  - apply (Hcb' {| args := [("state", demo_token); ("code", "validcode")];
                   authorization := None |});
      [discriminate | discriminate |].
    left. exists 1700000000%N. split.
    + apply (Hts reference_runtime_ok 1700000000%N demo_uuid). exact demo_dumps.
    + reflexivity.
Defined.

(** ** The verify step *)

Lemma split_bearer sid :
  contains " " sid = false -> split " " ("Bearer " +:+ sid) !! 1%nat = Some sid.
Proof.
  intros H. change ("Bearer " +:+ sid) with ("Bearer" +:+ String " " sid).
  rewrite split_first by reflexivity. rewrite (split_absent _ _ H). reflexivity.
Qed.

Lemma split_bearer_tail sid tail :
  contains " " sid = false ->
  split " " ("Bearer " +:+ sid +:+ String " " tail) !! 1%nat = Some sid.
Proof.
  intros H.
  change ("Bearer " +:+ sid +:+ String " " tail)
    with ("Bearer" +:+ String " " (sid +:+ String " " tail)).
  rewrite split_first by reflexivity. rewrite (split_first _ _ _ H). reflexivity.
Qed.

Lemma auth_wrapper_bearer env func a sid w :
  contains " " sid = false ->
  auth_wrapper env func {| args := a; authorization := Some ("Bearer " +:+ sid) |} w
  = resolve env func sid w.
Proof.
  intros H. unfold auth_wrapper, resolve. cbn [authorization].
  change ("Bearer " +:+ sid =? "") with false.
  change (startswith "Bearer " ("Bearer " +:+ sid)) with true.
  cbn [orb negb]. rewrite (split_bearer _ H). reflexivity.
Qed.

Lemma auth_wrapper_bearer_tail env func a sid tail w :
  contains " " sid = false ->
  auth_wrapper env func
    {| args := a; authorization := Some ("Bearer " +:+ sid +:+ String " " tail) |} w
  = resolve env func sid w.
Proof.
  intros H. unfold auth_wrapper, resolve. cbn [authorization].
  change ("Bearer " +:+ sid +:+ String " " tail =? "") with false.
  change (startswith "Bearer " ("Bearer " +:+ sid +:+ String " " tail)) with true.
  cbn [orb negb]. rewrite (split_bearer_tail _ _ H). reflexivity.
Qed.

Lemma resolve_sentinel env func sid w :
  secrets w !! sid = Some (SecretString "null") ->
  exists description,
    resolve env func sid w = (Aborted 401 description, log (GetSecretValue sid) w) /\
    (sid <> "" -> aws_error env (GetSecretValue sid) = None ->
     description = "Unauthorized: access_token not found").
Proof.
  intros Hs. unfold resolve. munfold. cbn.
  destruct (String.eqb_spec sid "") as [->|Hne]; cbn.
  - eexists. split; [reflexivity|]. intros Hc. contradiction.
  - destruct (aws_error env (GetSecretValue sid)) as [msg|]; cbn.
    + eexists. split; [reflexivity|]. discriminate.
    + rewrite Hs. cbn. eexists. split; reflexivity.
Qed.

Lemma serve_authorize_ok R cfg env request st resp st' cs url sid :
  serve R cfg env Authorize request st = (resp, st', cs) ->
  response_body resp = JsonBody (JObj [("redirect_url", JStr url); ("session_id", JStr sid)]) ->
  st' = <[sid := SecretString "null"]> st /\ contains " " sid = false.
Proof.
  unfold serve, view.
  destruct (authorize R cfg env _) as [o w'] eqn:Ha.
  intros [= <- <- <-] Hbody.
  destruct o as [v| |]; try discriminate Hbody.
  apply authorize_inv in Ha as (token & Hd & _ & -> & ->).
  cbn in Hbody. injection Hbody as _ <-.
  split; [reflexivity|].
  destruct (dumps_shape _ _ _ _ _ Hd) as (raw & _ & ->). apply token_no_space.
Qed.

(** C4: while the record of a session holds the sentinel, the verify step
    aborts with 401 for the well-formed credential [Bearer <session>] and
    never reaches the wrapped view; when the backend answers, the reason is
    the missing access token.  In particular [GET /check-authorization]
    right after a successful [POST /authorize], with the [session_id] it
    returned, answers 401. *)
Theorem sentinel_is_unauthorized :
  (forall env func a sid w,
      secrets w !! sid = Some (SecretString "null") ->
      contains " " sid = false ->
      exists description,
        auth_wrapper env func {| args := a; authorization := Some ("Bearer " +:+ sid) |} w
        = (Aborted 401 description, log (GetSecretValue sid) w) /\
        (sid <> "" -> aws_error env (GetSecretValue sid) = None ->
         description = "Unauthorized: access_token not found")) /\
  (forall R cfg env env' request st resp st' cs url sid,
      serve R cfg env Authorize request st = (resp, st', cs) ->
      response_body resp
      = JsonBody (JObj [("redirect_url", JStr url); ("session_id", JStr sid)]) ->
      exists description,
        serve R cfg env' CheckAuthorization
          {| args := []; authorization := Some ("Bearer " +:+ sid) |} st'
        = ({| status_code := 401; response_body := Text description |}, st',
           [GetSecretValue sid])).
Proof.
  split.
  - intros env func a sid w Hs Hsp. rewrite (auth_wrapper_bearer _ _ _ _ _ Hsp).
    apply resolve_sentinel, Hs.
  - intros R cfg env env' request st resp st' cs url sid Ha Hbody.
    destruct (serve_authorize_ok _ _ _ _ _ _ _ _ _ _ Ha Hbody) as [-> Hsp].
    unfold serve, view, check_authorization.
    rewrite (auth_wrapper_bearer _ _ _ _ _ Hsp).
    destruct (resolve_sentinel env' (mret (Tuple "Success" 200)) sid
                {| secrets := <[sid := SecretString "null"]> st; calls := [];
                   g_access_token := None |}) as (d & -> & _).
    { cbn. apply lookup_insert_eq. }
    exists d. reflexivity.
Qed.

Lemma demo_serve_authorize :
  serve reference_runtime demo_cfg (demo_env 1700000000) Authorize
    {| args := []; authorization := None |} ∅
  = ({| status_code := 200;
        response_body :=
          JsonBody (JObj [("redirect_url",
                           JStr (redirect_url demo_cfg (demo_env 1700000000) demo_token));
                          ("session_id", JStr demo_token)]) |},
     <[demo_token := SecretString "null"]> ∅,
     [SerializerDumps demo_uuid; CreateSecret demo_token "null"]).
Proof.
  unfold serve, view. fold empty_world. rewrite demo_authorize. reflexivity.
Qed.

(** Scenario A in the reference deployment. *)
Lemma sentinel_is_unauthorized_witness :
  exists description,
    serve reference_runtime demo_cfg (demo_env 1700000005) CheckAuthorization
      {| args := []; authorization := Some ("Bearer " +:+ demo_token) |}
      (<[demo_token := SecretString "null"]> ∅)
    = ({| status_code := 401; response_body := Text description |},
       <[demo_token := SecretString "null"]> ∅, [GetSecretValue demo_token]).
Proof.
  exact (proj2 sentinel_is_unauthorized reference_runtime demo_cfg (demo_env 1700000000)
           (demo_env 1700000005) _ _ _ _ _ _ _ demo_serve_authorize eq_refl).
Defined.

Lemma resolve_logs_lookup env func sid w (Hfunc : forall w0, exists rest,
    calls (func w0).2 = (calls w0 ++ rest)%list) :
  exists rest, calls (resolve env func sid w).2 = (calls w ++ GetSecretValue sid :: rest)%list.
Proof.
  unfold resolve. munfold. cbn.
  repeat (mcase; cbn); try (exists []; reflexivity).
  match goal with |- context [func ?w0] => destruct (Hfunc w0) as [rest ->] end.
  cbn. exists rest. rewrite <- app_assoc. reflexivity.
Qed.

Lemma resolve_empty env func w :
  resolve env func "" w
  = (Aborted 401
       ("Unauthorized: AWS Secret fetch failed - " +:+ "Parameter validation failed:"
        +:+ newline
        +:+ "Invalid length for parameter SecretId, value: 0, valid min length: 1"),
     log (GetSecretValue "") w).
Proof. reflexivity. Qed.

(** Every text after the prefix is a first segment free of spaces, alone
    or followed by a space and more. *)
Lemma first_segment rest :
  exists sid, contains " " sid = false /\
    (rest = sid \/ exists tail, rest = sid +:+ String " " tail).
Proof.
  induction rest as [|c rest (sid & Hsid & IH)].
  - exists "". split; [reflexivity | now left].
  - destruct (Ascii.eqb_spec c " ") as [->|Hc].
    + exists "". split; [reflexivity|]. right. exists rest. reflexivity.
    + exists (String c sid). split.
      * simpl. rewrite Hsid. destruct (Ascii.eqb_spec c " "); [contradiction | reflexivity].
      * destruct IH as [->|[tail ->]]; [now left|]. right. exists tail. reflexivity.
Qed.

(** C10: for a header [Bearer <sid>] or [Bearer <sid> <more>], with [sid]
    free of spaces, the verify step looks up [sid], the second segment:
    what follows it changes nothing, and the lookup is the first call made.
    The header [Bearer ] passes the credential check and fails at the
    lookup of the empty name with 401. *)
Theorem bearer_second_segment env func a sid tail w :
  contains " " sid = false ->
  auth_wrapper env func
    {| args := a; authorization := Some ("Bearer " +:+ sid +:+ String " " tail) |} w
  = auth_wrapper env func {| args := a; authorization := Some ("Bearer " +:+ sid) |} w /\
  ((forall w0, exists rest, calls (func w0).2 = (calls w0 ++ rest)%list) ->
   exists rest,
     calls (auth_wrapper env func
              {| args := a; authorization := Some ("Bearer " +:+ sid) |} w).2
     = (calls w ++ GetSecretValue sid :: rest)%list) /\
  (exists msg,
     auth_wrapper env func {| args := a; authorization := Some "Bearer " |} w
     = (Aborted 401 ("Unauthorized: AWS Secret fetch failed - " +:+ msg),
        log (GetSecretValue "") w)).
Proof.
  intros H. repeat split.
  - rewrite auth_wrapper_bearer_tail, auth_wrapper_bearer by exact H. reflexivity.
  - intros Hfunc. rewrite auth_wrapper_bearer by exact H.
    apply resolve_logs_lookup, Hfunc.
  - eexists. change "Bearer " with ("Bearer " +:+ "").
    rewrite auth_wrapper_bearer by reflexivity. apply resolve_empty.
Qed.

Lemma bearer_second_segment_witness :
  check_authorization (demo_env 1700000010)
    {| args := []; authorization := Some ("Bearer " +:+ "abc" +:+ String " " "def ghi") |}
    empty_world
  = check_authorization (demo_env 1700000010)
      {| args := []; authorization := Some ("Bearer " +:+ "abc") |} empty_world.
Proof.
  exact (proj1 (bearer_second_segment (demo_env 1700000010) (mret (Tuple "Success" 200))
                  [] "abc" "def ghi" empty_world eq_refl)).
Defined.

Example bearer_alone :
  serve reference_runtime demo_cfg (demo_env 1700000010) CheckAuthorization
    {| args := []; authorization := Some "Bearer " |} ∅
  = ({| status_code := 401;
        response_body :=
          Text ("Unauthorized: AWS Secret fetch failed - Parameter validation failed:"
                +:+ newline
                +:+ "Invalid length for parameter SecretId, value: 0, valid min length: 1") |},
     ∅, [GetSecretValue ""]).
Proof. reflexivity. Qed.

(** ** The proxy endpoint *)

Lemma resolve_token env func sid tok w :
  sid <> "" -> aws_error env (GetSecretValue sid) = None ->
  secrets w !! sid = Some (SecretString tok) -> tok <> "" -> tok <> "null" ->
  resolve env func sid w
  = func {| secrets := secrets w; calls := (calls w ++ [GetSecretValue sid])%list;
            g_access_token := Some tok |}.
Proof.
  intros Hsid Haws Hs Ht1 Ht2. unfold resolve. munfold. cbn.
  destruct (String.eqb_spec sid ""); [contradiction|].
  rewrite Haws. cbn. rewrite Hs. cbn.
  destruct (String.eqb_spec tok ""); [contradiction|].
  destruct (String.eqb_spec tok "null"); [contradiction|].
  cbn. destruct (func _). destruct o; reflexivity.
Qed.

Section GetRepoFacts.
Context (R : Runtime) (env : Env) (owner repo tok : string).
Context (st : gmap string secret_value) (cs : list call).

Let w0 := {| secrets := st; calls := cs; g_access_token := Some tok |}.
Let repo_info := RequestsGet ("https://api.github.com/repos/" +:+ owner +:+ "/" +:+ repo) [].
Let branch_info (b : string) :=
  RequestsGet ("https://api.github.com/repos/" +:+ owner +:+ "/" +:+ repo +:+ "/branches/" +:+ b)
    [("Authorization", "Bearer " +:+ tok)].
Let after (l : list call) := {| secrets := st; calls := (cs ++ l)%list; g_access_token := None |}.
Let failed (msg : string) : outcome rv := Aborted 500 ("GitHub repo fetch failed - " +:+ msg).

Lemma get_repo_body_ok f1 b f2 fc sha :
  http env repo_info = Body (JObj f1) -> assoc "default_branch" f1 = Some (JStr b) ->
  http env (branch_info b) = Body (JObj f2) -> assoc "commit" f2 = Some (JObj fc) ->
  assoc "sha" fc = Some (JStr sha) ->
  get_repo_body R env owner repo w0
  = (Return (Value (JStr sha)), after [repo_info; branch_info b]).
Proof.
  intros H1 H2 H3 H4 H5. unfold get_repo_body. munfold. cbn.
  fold repo_info. rewrite H1. cbn. rewrite H2. cbn.
  fold (branch_info b). rewrite H3. cbn. rewrite H4. cbn. rewrite H5. cbn.
  unfold after, log. cbn. rewrite <- app_assoc. reflexivity.
Qed.

Lemma get_repo_body_total :
  exists o l, get_repo_body R env owner repo w0 = (o, after l) /\
    match o with
    | Return (Value _) => True
    | Aborted 500 d => exists msg, d = "GitHub repo fetch failed - " +:+ msg
    | _ => False
    end.
Proof.
  unfold get_repo_body. munfold. cbn.
  repeat (mcase; cbn); unfold after, log; cbn;
    eexists; eexists; (split; [rewrite <- ?app_assoc; reflexivity|]); cbn; eauto.
Qed.

Lemma get_repo_body_first_failed :
  (forall msg, http env repo_info = ConnectionFailed msg ->
     get_repo_body R env owner repo w0 = (failed msg, after [repo_info])) /\
  (forall msg, http env repo_info = NotJson msg ->
     get_repo_body R env owner repo w0 = (failed msg, after [repo_info])) /\
  (forall f1, http env repo_info = Body (JObj f1) -> assoc "default_branch" f1 = None ->
     get_repo_body R env owner repo w0 = (failed "'default_branch'", after [repo_info])).
Proof.
  repeat split; intros; unfold get_repo_body; munfold; cbn; fold repo_info;
    repeat match goal with H : _ = _ |- _ => rewrite H; cbn end; reflexivity.
Qed.

Lemma get_repo_body_second_failed f1 b :
  http env repo_info = Body (JObj f1) -> assoc "default_branch" f1 = Some (JStr b) ->
  (forall msg, http env (branch_info b) = ConnectionFailed msg ->
     get_repo_body R env owner repo w0 = (failed msg, after [repo_info; branch_info b])) /\
  (forall msg, http env (branch_info b) = NotJson msg ->
     get_repo_body R env owner repo w0 = (failed msg, after [repo_info; branch_info b])) /\
  (forall f2, http env (branch_info b) = Body (JObj f2) -> assoc "commit" f2 = None ->
     get_repo_body R env owner repo w0 = (failed "'commit'", after [repo_info; branch_info b])) /\
  (forall f2 fc, http env (branch_info b) = Body (JObj f2) ->
     assoc "commit" f2 = Some (JObj fc) -> assoc "sha" fc = None ->
     get_repo_body R env owner repo w0 = (failed "'sha'", after [repo_info; branch_info b])).
Proof.
  intros H1 H2.
  repeat split; intros; unfold get_repo_body; munfold; cbn; fold repo_info;
    rewrite H1; cbn; rewrite H2; cbn; fold (branch_info b);
    repeat match goal with H : _ = _ |- _ => rewrite H; cbn end;
    unfold after, log; cbn; rewrite <- app_assoc; reflexivity.
Qed.
End GetRepoFacts.

(** C7: for a session whose record holds an access token,
    [GET /repos/<owner>/<repo>/files] asks the repository endpoint without
    credentials for the default branch, then the branch endpoint of that
    branch with the stored token as bearer, and returns the [sha] of its
    [commit] as the body of a 200 response.  Whatever the two replies are,
    the request ends either that way or in a 500 whose text is
    [GitHub repo fetch failed - ] followed by the text of the error: that of
    the transport, that of the JSON decoder, or the name of the missing
    field.  The store is never written. *)
Theorem get_repo_returns_tip R env owner repo a sid tok w :
  contains " " sid = false -> sid <> "" -> aws_error env (GetSecretValue sid) = None ->
  secrets w !! sid = Some (SecretString tok) -> tok <> "" -> tok <> "null" ->
  let request := {| args := a; authorization := Some ("Bearer " +:+ sid) |} in
  let repo_info :=
    RequestsGet ("https://api.github.com/repos/" +:+ owner +:+ "/" +:+ repo) [] in
  let branch_info b :=
    RequestsGet ("https://api.github.com/repos/" +:+ owner +:+ "/" +:+ repo
                 +:+ "/branches/" +:+ b) [("Authorization", "Bearer " +:+ tok)] in
  let after l :=
    {| secrets := secrets w; calls := (calls w ++ GetSecretValue sid :: l)%list;
       g_access_token := None |} in
  let failed msg : outcome rv := Aborted 500 ("GitHub repo fetch failed - " +:+ msg) in
  (forall f1 b f2 fc sha,
      http env repo_info = Body (JObj f1) -> assoc "default_branch" f1 = Some (JStr b) ->
      http env (branch_info b) = Body (JObj f2) -> assoc "commit" f2 = Some (JObj fc) ->
      assoc "sha" fc = Some (JStr sha) ->
      get_repo R env owner repo request w
      = (Return (Value (JStr sha)), after [repo_info; branch_info b]) /\
      make_response (Return (Value (JStr sha)))
      = {| status_code := 200; response_body := Text sha |}) /\
  (exists o l,
      get_repo R env owner repo request w = (o, after l) /\
      match o with
      | Return (Value _) => True
      | Aborted 500 d => exists msg, d = "GitHub repo fetch failed - " +:+ msg
      | _ => False
      end) /\
  ((forall msg, http env repo_info = ConnectionFailed msg ->
      get_repo R env owner repo request w = (failed msg, after [repo_info])) /\
   (forall msg, http env repo_info = NotJson msg ->
      get_repo R env owner repo request w = (failed msg, after [repo_info])) /\
   (forall f1, http env repo_info = Body (JObj f1) -> assoc "default_branch" f1 = None ->
      get_repo R env owner repo request w = (failed "'default_branch'", after [repo_info]))) /\
  (forall f1 b,
      http env repo_info = Body (JObj f1) -> assoc "default_branch" f1 = Some (JStr b) ->
      (forall msg, http env (branch_info b) = ConnectionFailed msg ->
         get_repo R env owner repo request w
         = (failed msg, after [repo_info; branch_info b])) /\
      (forall msg, http env (branch_info b) = NotJson msg ->
         get_repo R env owner repo request w
         = (failed msg, after [repo_info; branch_info b])) /\
      (forall f2, http env (branch_info b) = Body (JObj f2) -> assoc "commit" f2 = None ->
         get_repo R env owner repo request w
         = (failed "'commit'", after [repo_info; branch_info b])) /\
      (forall f2 fc, http env (branch_info b) = Body (JObj f2) ->
         assoc "commit" f2 = Some (JObj fc) -> assoc "sha" fc = None ->
         get_repo R env owner repo request w
         = (failed "'sha'", after [repo_info; branch_info b]))).
Proof.
  intros Hsp Hsid Haws Hs Ht1 Ht2. cbv zeta.
  assert (forall l,
    {| secrets := secrets w; calls := ((calls w ++ [GetSecretValue sid]) ++ l)%list;
       g_access_token := None |}
    = {| secrets := secrets w; calls := (calls w ++ GetSecretValue sid :: l)%list;
         g_access_token := None |}) as Hafter.
  { intros l. now rewrite <- app_assoc. }
  unfold get_repo. rewrite (auth_wrapper_bearer _ _ _ _ _ Hsp).
  rewrite (resolve_token _ _ _ _ _ Hsid Haws Hs Ht1 Ht2).
  split; [|split; [|split]].
  - intros f1 b f2 fc sha H1 H2 H3 H4 H5. split; [|reflexivity].
    rewrite (get_repo_body_ok _ _ _ _ _ _ _ _ _ _ _ _ H1 H2 H3 H4 H5). now rewrite Hafter.
  - destruct (get_repo_body_total R env owner repo tok (secrets w)
                (calls w ++ [GetSecretValue sid])%list) as (o & l & -> & Ho).
    exists o, l. rewrite Hafter. split; [reflexivity | exact Ho].
  - destruct (get_repo_body_first_failed R env owner repo tok (secrets w)
                (calls w ++ [GetSecretValue sid])%list) as (F1 & F2 & F3).
    repeat split; intros.
    + erewrite F1 by eassumption. now rewrite Hafter.
    + erewrite F2 by eassumption. now rewrite Hafter.
    + erewrite F3 by eassumption. now rewrite Hafter.
  - intros f1 b H1 H2.
    destruct (get_repo_body_second_failed R env owner repo tok (secrets w)
                (calls w ++ [GetSecretValue sid])%list f1 b H1 H2) as (F1 & F2 & F3 & F4).
    repeat split; intros.
    + erewrite F1 by eassumption. now rewrite Hafter.
    + erewrite F2 by eassumption. now rewrite Hafter.
    + erewrite F3 by eassumption. now rewrite Hafter.
    + erewrite F4 by eassumption. now rewrite Hafter.
Qed.

(** Scenario D in the reference deployment. *)
Lemma get_repo_returns_tip_witness :
  let w := {| secrets := <[demo_token := SecretString "tok123"]> ∅; calls := [];
              g_access_token := None |} in
  get_repo reference_runtime (demo_env 1700000900) "acme" "widgets"
    {| args := []; authorization := Some ("Bearer " +:+ demo_token) |} w
  = (Return (Value (JStr "abc123")),
     {| secrets := <[demo_token := SecretString "tok123"]> ∅;
        calls := [GetSecretValue demo_token;
                  RequestsGet "https://api.github.com/repos/acme/widgets" [];
                  RequestsGet "https://api.github.com/repos/acme/widgets/branches/main"
                    [("Authorization", "Bearer tok123")]];
        g_access_token := None |})
  /\ make_response (Return (Value (JStr "abc123")))
     = {| status_code := 200; response_body := Text "abc123" |}.
Proof.
  cbv zeta.
  refine (proj1 (get_repo_returns_tip reference_runtime (demo_env 1700000900)
                   "acme" "widgets" [] demo_token "tok123" _ _ _ _ _ _ _)
            _ "main" _ _ "abc123" eq_refl eq_refl eq_refl eq_refl eq_refl).
  - reflexivity.
  - discriminate.
  - reflexivity.
  - apply lookup_insert_eq.
  - discriminate.
  - discriminate.
Defined.

(** ** The exchange *)

Section ExchangeFacts.
Context (R : Runtime) (cfg : Config) (env : Env) (request : Request) (w : World).
Let state := args_get "state" (args request).
Let code := args_get "code" (args request).
Let exchange :=
  RequestsPost "https://github.com/login/oauth/access_token"
    [("client_id", GITHUB_CLIENT_ID cfg); ("client_secret", GITHUB_CLIENT_SECRET cfg);
     ("code", code); ("redirect_uri", callback_url cfg env)]
    [("Accept", "application/json")].
Let after (st : gmap string secret_value) (l : list call) :=
  {| secrets := st;
     calls := (calls w ++ SerializerLoads state 600 :: GetSecretValue state :: l)%list;
     g_access_token := g_access_token w |}.
Context (payload : json) (held : string).
Context (Hstate : state <> "") (Hcode : code <> "").
Context (Hloads : loads R (SECRET_KEY cfg) (time_now env) 600 state = Return payload).
Context (Hget : aws_error env (GetSecretValue state) = None).
Context (Hheld : secrets w !! state = Some (SecretString held)).

Lemma callback_exchange_cases :
  (forall msg, http env exchange = ConnectionFailed msg ->
     callback R cfg env request w
     = (Aborted 401 ("GitHub access token fetch failed - " +:+ msg),
        after (secrets w) [exchange])) /\
  (forall msg, http env exchange = NotJson msg ->
     callback R cfg env request w
     = (Raise (Exn OtherException msg), after (secrets w) [exchange])) /\
  (forall fields, http env exchange = Body (JObj fields) ->
     assoc "access_token" fields = None ->
     callback R cfg env request w
     = (Aborted 500 ("AWS Secret update failed - " +:+ validation_error R JNull),
        after (secrets w) [exchange; PutSecretValue state JNull])) /\
  (forall fields tok, http env exchange = Body (JObj fields) ->
     assoc "access_token" fields = Some (JStr tok) -> tok <> "" ->
     aws_error env (PutSecretValue state (JStr tok)) = None ->
     callback R cfg env request w
     = (Return (Tuple "Authorization complete. Feel free to return to VSCode." 200),
        after (<[state := SecretString tok]> (secrets w))
          [exchange; PutSecretValue state (JStr tok)])).
Proof.
  unfold after, exchange, code, state in *. clear after exchange code state.
  apply String.eqb_neq in Hstate, Hcode.
  repeat split; intros;
    try match goal with H : _ <> "" |- _ => apply String.eqb_neq in H end;
    unfold callback; munfold; rewrite ?Hstate, ?Hcode;
    cbn -[lookup insert]; rewrite Hloads; cbn -[lookup insert];
    rewrite Hget; cbn -[lookup insert]; rewrite Hheld; cbn -[lookup insert];
    repeat match goal with H : _ = _ |- _ => rewrite H; cbn -[lookup insert] end;
    unfold log; cbn -[lookup insert]; rewrite <- ?app_assoc; reflexivity.
Qed.
End ExchangeFacts.

(** C6, at the failing input: the exchange is answered with a JSON object
    that carries no [access_token] (what GitHub sends for a code it
    refuses).  [callback] does not stop at the exchange: it goes on to
    [put_secret_value] with [None], and the request ends in the 500 of a
    failed store update. *)
Theorem exchange_without_token_reaches_store R cfg env request w payload held fields :
  let state := args_get "state" (args request) in
  let code := args_get "code" (args request) in
  let exchange :=
    RequestsPost "https://github.com/login/oauth/access_token"
      [("client_id", GITHUB_CLIENT_ID cfg); ("client_secret", GITHUB_CLIENT_SECRET cfg);
       ("code", code); ("redirect_uri", callback_url cfg env)]
      [("Accept", "application/json")] in
  state <> "" -> code <> "" ->
  loads R (SECRET_KEY cfg) (time_now env) 600 state = Return payload ->
  aws_error env (GetSecretValue state) = None ->
  secrets w !! state = Some (SecretString held) ->
  http env exchange = Body (JObj fields) ->
  assoc "access_token" fields = None ->
  callback R cfg env request w
  = (Aborted 500 ("AWS Secret update failed - " +:+ validation_error R JNull),
     {| secrets := secrets w;
        calls := (calls w ++ [SerializerLoads state 600; GetSecretValue state; exchange;
                              PutSecretValue state JNull])%list;
        g_access_token := g_access_token w |}).
Proof.
  cbv zeta. intros Hstate Hcode Hl Hget Hheld Hhttp Hnone.
  exact (proj1 (proj2 (proj2 (callback_exchange_cases R cfg env request w payload held
                                Hstate Hcode Hl Hget Hheld))) fields Hhttp Hnone).
Qed.

Lemma demo_loads_100 :
  loads reference_runtime "s3cr3t" 1700000100 600 demo_token = Return (JStr demo_uuid).
Proof. vm_compute. reflexivity. Qed.

Lemma exchange_without_token_reaches_store_witness :
  callback reference_runtime demo_cfg (demo_env 1700000100)
    {| args := [("state", demo_token); ("code", "badcode")]; authorization := None |}
    {| secrets := <[demo_token := SecretString "null"]> ∅; calls := [];
       g_access_token := None |}
  = (Aborted 500
       ("AWS Secret update failed - Parameter validation failed:" +:+ newline
        +:+ "Invalid type for parameter SecretString, value: None, type: <class 'NoneType'>, valid types: <class 'str'>"),
     {| secrets := <[demo_token := SecretString "null"]> ∅;
        calls := [SerializerLoads demo_token 600; GetSecretValue demo_token;
                  RequestsPost "https://github.com/login/oauth/access_token"
                    [("client_id", "Iv1.8a61f9b3a7aba766"); ("client_secret", "shhh");
                     ("code", "badcode"); ("redirect_uri", "http://localhost:8080/callback")]
                    [("Accept", "application/json")];
                  PutSecretValue demo_token JNull];
        g_access_token := None |}).
Proof.
  refine (exchange_without_token_reaches_store reference_runtime demo_cfg
            (demo_env 1700000100)
            {| args := [("state", demo_token); ("code", "badcode")]; authorization := None |}
            {| secrets := <[demo_token := SecretString "null"]> ∅; calls := [];
               g_access_token := None |}
            (JStr demo_uuid) "null" [("error", JStr "bad_verification_code")]
            _ _ _ _ _ _ _).
  - discriminate.
  - discriminate.
  - exact demo_loads_100.
  - reflexivity.
  - apply lookup_insert_eq.
  - reflexivity.
  - reflexivity.
Defined.

(** ** The life of a record *)

Lemma authorize_store R cfg env w :
  secrets (authorize R cfg env w).2 = secrets w \/
  exists token,
    secrets w !! token = None /\
    secrets (authorize R cfg env w).2 = <[token := SecretString "null"]> (secrets w).
Proof.
  munfold. cbn -[lookup insert].
  repeat (mcase; cbn -[lookup insert]); auto.
  right. eexists. split; [eassumption | reflexivity].
Qed.

Lemma callback_store R cfg env request w :
  secrets (callback R cfg env request w).2 = secrets w \/
  exists held tok,
    secrets w !! args_get "state" (args request) = Some held /\
    secrets (callback R cfg env request w).2
    = <[args_get "state" (args request) := SecretString tok]> (secrets w).
Proof.
  munfold. cbn -[lookup insert].
  repeat (mcase; cbn -[lookup insert]); auto.
  right. eexists. eexists. split; [first [eassumption | reflexivity] | reflexivity].
Qed.

Lemma callback_store_token R cfg env request w :
  let state := args_get "state" (args request) in
  let code := args_get "code" (args request) in
  secrets (callback R cfg env request w).2 = secrets w \/
  exists payload held fields tok,
    loads R (SECRET_KEY cfg) (time_now env) 600 state = Return payload /\
    secrets w !! state = Some (SecretString held) /\
    http env (exchange_call cfg env code) = Body (JObj fields) /\
    assoc "access_token" fields = Some (JStr tok) /\
    secrets (callback R cfg env request w).2 = <[state := SecretString tok]> (secrets w).
Proof.
  cbv zeta. unfold exchange_call. munfold. cbn -[lookup insert].
  repeat (mcase; cbn -[lookup insert]); auto.
  right. do 4 eexists. split; [reflexivity|]. split; [reflexivity|].
  split; [reflexivity|]. split; [|reflexivity].
  destruct (assoc "access_token" _) as [v|]; cbn in *; congruence.
Qed.

Lemma resolve_store env func sid w :
  (forall w0, secrets (func w0).2 = secrets w0) ->
  secrets (resolve env func sid w).2 = secrets w.
Proof.
  intros Hfunc. unfold resolve. munfold. cbn -[lookup insert].
  repeat (mcase; cbn -[lookup insert]); auto.
  rewrite Hfunc. reflexivity.
Qed.

Lemma auth_wrapper_resolve env func request w :
  auth_wrapper env func request w = (Aborted 401 "Authorization header not found", w) \/
  auth_wrapper env func request w = (Raise (Exn OtherException "list index out of range"), w) \/
  exists sid, auth_wrapper env func request w = resolve env func sid w.
Proof.
  unfold auth_wrapper.
  destruct (authorization request) as [h|]; [|now left].
  destruct (_ || _); [now left|].
  destruct (split " " h !! 1%nat) as [sid|]; [|now (right; left)].
  right. right. exists sid. reflexivity.
Qed.

Lemma auth_wrapper_store env func request w :
  (forall w0, secrets (func w0).2 = secrets w0) ->
  secrets (auth_wrapper env func request w).2 = secrets w.
Proof.
  intros Hfunc.
  destruct (auth_wrapper_resolve env func request w) as [-> | [-> | [sid ->]]];
    [reflexivity | reflexivity |].
  apply resolve_store, Hfunc.
Qed.

Lemma get_repo_body_store R env owner repo w :
  secrets (get_repo_body R env owner repo w).2 = secrets w.
Proof.
  munfold. cbn -[lookup insert].
  repeat (mcase; cbn -[lookup insert]); reflexivity.
Qed.

Lemma step_secrets R cfg s st :
  step R cfg s st
  = secrets (view R cfg (step_env s) (step_route s) (step_request s)
               {| secrets := st; calls := []; g_access_token := None |}).2.
Proof. unfold step, serve. destruct (view _ _ _ _ _ _). reflexivity. Qed.

Lemma step_cases R cfg s st :
  match step_route s with
  | Authorize =>
      step R cfg s st = st \/
      exists token, st !! token = None /\ step R cfg s st = <[token := SecretString "null"]> st
  | Callback =>
      step R cfg s st = st \/
      exists held tok,
        st !! args_get "state" (args (step_request s)) = Some held /\
        step R cfg s st = <[args_get "state" (args (step_request s)) := SecretString tok]> st
  | CheckAuthorization | Files _ _ => step R cfg s st = st
  end.
Proof.
  rewrite step_secrets. destruct (step_route s); cbn [view].
  - apply (authorize_store R cfg (step_env s)
             {| secrets := st; calls := []; g_access_token := None |}).
  - apply (callback_store R cfg (step_env s) (step_request s)
             {| secrets := st; calls := []; g_access_token := None |}).
  - apply (auth_wrapper_store (step_env s) _ (step_request s)
             {| secrets := st; calls := []; g_access_token := None |}).
    reflexivity.
  - apply (auth_wrapper_store (step_env s) _ (step_request s)
             {| secrets := st; calls := []; g_access_token := None |}).
    apply get_repo_body_store.
Qed.

Lemma step_keeps R cfg s st k : is_Some (st !! k) -> is_Some (step R cfg s st !! k).
Proof.
  intros Hk. pose proof (step_cases R cfg s st) as H.
  destruct (step_route s).
  - destruct H as [-> | (token & _ & ->)]; [exact Hk|].
    rewrite lookup_insert_is_Some. destruct (decide (token = k)); auto.
  - destruct H as [-> | (held & tok & _ & ->)]; [exact Hk|].
    rewrite lookup_insert_is_Some.
    destruct (decide (args_get "state" (args (step_request s)) = k)); auto.
  - now rewrite H.
  - now rewrite H.
Qed.

Lemma run_keeps R cfg steps st k : is_Some (st !! k) -> is_Some (run R cfg steps st !! k).
Proof.
  revert st. induction steps as [|s steps IH]; intros st Hk; [exact Hk|].
  cbn. apply IH, step_keeps, Hk.
Qed.

(** C8, as stated, fails: in the reference deployment the record of the
    session changes twice, from the sentinel to the token of the first
    completed handshake and from that to the token of the second. *)
Lemma record_changes_once_counterexample :
  ~ (forall R cfg steps k, changes k (history R cfg steps ∅) <= 1).
Proof.
  intros H. specialize (H reference_runtime demo_cfg demo_steps demo_token).
  vm_compute in H. lia.
Qed.

Example demo_history :
  map (fun st : gmap string secret_value => st !! demo_token)
    (history reference_runtime demo_cfg demo_steps ∅)
  = [None; Some (SecretString "null"); Some (SecretString "tok123");
     Some (SecretString "tok456")].
Proof. vm_compute. reflexivity. Qed.

(** C8, amended: a request never deletes a record; a record that appears
    was created by the initiate step and holds the sentinel; a record whose
    value changes was rewritten by the callback step, under its [state],
    which verified, to the [access_token] of the reply to its exchange;
    every callback whose state verifies, whose record is read, whose
    exchange is answered with a non-empty [access_token] and whose
    [put_secret_value] succeeds rewrites the record to that token, whatever
    the record held; the verify step writes nothing; and along any sequence
    of requests a record, once there, stays.  Nothing bounds how often the
    callback step rewrites a record. *)
Theorem records_are_kept_and_rewritten_by_callback R cfg s st :
  let env := step_env s in
  let state := args_get "state" (args (step_request s)) in
  let code := args_get "code" (args (step_request s)) in
  (forall k, is_Some (st !! k) -> is_Some (step R cfg s st !! k)) /\
  (forall k v',
      st !! k = None -> step R cfg s st !! k = Some v' ->
      step_route s = Authorize /\ v' = SecretString "null") /\
  (forall k v v',
      st !! k = Some v -> step R cfg s st !! k = Some v' -> v' <> v ->
      step_route s = Callback /\ k = state /\
      exists payload fields tok,
        loads R (SECRET_KEY cfg) (time_now env) 600 state = Return payload /\
        http env (exchange_call cfg env code) = Body (JObj fields) /\
        assoc "access_token" fields = Some (JStr tok) /\
        v' = SecretString tok) /\
  (forall payload held fields tok,
      step_route s = Callback -> state <> "" -> code <> "" ->
      loads R (SECRET_KEY cfg) (time_now env) 600 state = Return payload ->
      aws_error env (GetSecretValue state) = None ->
      st !! state = Some (SecretString held) ->
      http env (exchange_call cfg env code) = Body (JObj fields) ->
      assoc "access_token" fields = Some (JStr tok) -> tok <> "" ->
      aws_error env (PutSecretValue state (JStr tok)) = None ->
      step R cfg s st = <[state := SecretString tok]> st) /\
  (step_route s <> Authorize -> step_route s <> Callback -> step R cfg s st = st) /\
  (forall steps k, is_Some (st !! k) -> is_Some (run R cfg steps st !! k)).
Proof.
  cbv zeta. pose proof (step_cases R cfg s st) as H.
  split; [|split; [|split; [|split; [|split]]]].
  - intros k. apply step_keeps.
  - intros k v' Hnone Hsome. destruct (step_route s).
    + destruct H as [H | (token & _ & H)]; rewrite H in Hsome; [congruence|].
      destruct (decide (token = k)) as [->|Hne].
      * rewrite lookup_insert_eq in Hsome. split; congruence.
      * rewrite lookup_insert_ne in Hsome by exact Hne. congruence.
    + destruct H as [H | (held & tok & Hheld & H)]; rewrite H in Hsome; [congruence|].
      destruct (decide (args_get "state" (args (step_request s)) = k)) as [<-|Hne].
      * congruence.
      * rewrite lookup_insert_ne in Hsome by exact Hne. congruence.
    + rewrite H in Hsome. congruence.
    + rewrite H in Hsome. congruence.
  - intros k v v' Hv Hv' Hne. destruct (step_route s) eqn:Hr.
    + destruct H as [H | (token & Hfresh & H)]; rewrite H in Hv'; [congruence|].
      destruct (decide (token = k)) as [->|Hk]; [congruence|].
      rewrite lookup_insert_ne in Hv' by exact Hk. congruence.
    + clear H. rewrite step_secrets, Hr in Hv'. cbn [view] in Hv'.
      destruct (callback_store_token R cfg (step_env s) (step_request s)
                  {| secrets := st; calls := []; g_access_token := None |})
        as [H | (payload & held & fields & tok & Hl & _ & Hhttp & Htok & H)];
        rewrite H in Hv'; cbn [secrets] in Hv'; [congruence|].
      destruct (decide (args_get "state" (args (step_request s)) = k)) as [<-|Hk].
      * rewrite lookup_insert_eq in Hv'. split; [reflexivity|]. split; [reflexivity|].
        exists payload, fields, tok. repeat split; try assumption. congruence.
      * rewrite lookup_insert_ne in Hv' by exact Hk. congruence.
    + rewrite H in Hv'. congruence.
    + rewrite H in Hv'. congruence.
  - intros payload held fields tok Hr Hstate Hcode Hl Hget Hheld Hhttp Htok Hne Hput.
    rewrite step_secrets, Hr. cbn [view].
    rewrite (proj2 (proj2 (proj2
               (callback_exchange_cases R cfg (step_env s) (step_request s)
                  {| secrets := st; calls := []; g_access_token := None |}
                  payload held Hstate Hcode Hl Hget Hheld))) fields tok Hhttp Htok Hne Hput).
    reflexivity.
  - intros Ha Hc. destruct (step_route s); [contradiction | contradiction | exact H | exact H].
  - intros steps k. apply run_keeps.
Qed.

(** Scenario B in the reference deployment: initiate, a completed handshake,
    then a successful check. *)
Example demo_handshake :
  let st1 := step reference_runtime demo_cfg
               {| step_env := demo_env 1700000000; step_route := Authorize;
                  step_request := {| args := []; authorization := None |} |} ∅ in
  let r2 := serve reference_runtime demo_cfg (demo_env 1700000100) Callback
              {| args := [("state", demo_token); ("code", "validcode")];
                 authorization := None |} st1 in
  let r3 := serve reference_runtime demo_cfg (demo_env 1700000200) CheckAuthorization
              {| args := []; authorization := Some ("Bearer " +:+ demo_token) |} r2.1.2 in
  r2.1.1 = {| status_code := 200;
              response_body :=
                Text "Authorization complete. Feel free to return to VSCode." |} /\
  r2.1.2 !! demo_token = Some (SecretString "tok123") /\
  r3.1.1 = {| status_code := 200; response_body := Text "Success" |}.
Proof. vm_compute. repeat split; reflexivity. Qed.

(** * Further properties of the application *)

(** ** The callback step, case by case *)

Section CallbackOutcomes.
Context (R : Runtime) (cfg : Config) (env : Env) (request : Request) (w : World).
Let state := args_get "state" (args request).
Let code := args_get "code" (args request).
Let exchange :=
  RequestsPost "https://github.com/login/oauth/access_token"
    [("client_id", GITHUB_CLIENT_ID cfg); ("client_secret", GITHUB_CLIENT_SECRET cfg);
     ("code", code); ("redirect_uri", callback_url cfg env)]
    [("Accept", "application/json")].
Let after (st : gmap string secret_value) (l : list call) :=
  {| secrets := st; calls := (calls w ++ l)%list; g_access_token := g_access_token w |}.
Context (payload : json).
Context (Hstate : state <> "") (Hcode : code <> "").
Context (Hloads : loads R (SECRET_KEY cfg) (time_now env) 600 state = Return payload).

Lemma callback_lookup_cases :
  (forall msg, aws_error env (GetSecretValue state) = Some msg ->
     callback R cfg env request w
     = (Aborted 401 ("Unauthorized: AWS Secret fetch failed - " +:+ msg),
        after (secrets w) [SerializerLoads state 600; GetSecretValue state])) /\
  (aws_error env (GetSecretValue state) = None -> secrets w !! state = None ->
     callback R cfg env request w
     = (Aborted 401
          ("Unauthorized: AWS Secret fetch failed - " +:+
           "An error occurred (ResourceNotFoundException) when calling the GetSecretValue operation: Secrets Manager can't find the specified secret."),
        after (secrets w) [SerializerLoads state 600; GetSecretValue state])) /\
  (forall b, aws_error env (GetSecretValue state) = None ->
     secrets w !! state = Some (SecretBinary b) ->
     callback R cfg env request w
     = (Aborted 401 "Invalid state",
        after (secrets w) [SerializerLoads state 600; GetSecretValue state])).
Proof.
  unfold after, exchange, code, state in *. clear after exchange code state.
  apply String.eqb_neq in Hstate, Hcode.
  repeat split; intros; unfold callback; munfold; rewrite ?Hstate, ?Hcode;
    cbn -[lookup insert]; rewrite Hloads; cbn -[lookup insert];
    repeat match goal with H : _ = _ |- _ => rewrite H; cbn -[lookup insert] end;
    unfold log; cbn -[lookup insert]; rewrite <- ?app_assoc; reflexivity.
Qed.

Lemma callback_reply_cases held :
  aws_error env (GetSecretValue state) = None ->
  secrets w !! state = Some (SecretString held) ->
  (forall j, http env exchange = Body j -> (forall fields, j <> JObj fields) ->
     callback R cfg env request w
     = (Raise (Exn OtherException (attribute_error R j)),
        after (secrets w) [SerializerLoads state 600; GetSecretValue state; exchange])) /\
  (forall fields tok msg, http env exchange = Body (JObj fields) ->
     assoc "access_token" fields = Some (JStr tok) -> tok <> "" ->
     aws_error env (PutSecretValue state (JStr tok)) = Some msg ->
     callback R cfg env request w
     = (Aborted 500 ("AWS Secret update failed - " +:+ msg),
        after (secrets w) [SerializerLoads state 600; GetSecretValue state; exchange;
                           PutSecretValue state (JStr tok)])).
Proof.
  intros Hget Hheld.
  unfold after, exchange, code, state in *. clear after exchange code state.
  apply String.eqb_neq in Hstate, Hcode.
  split.
  - intros j Hj Hobj. unfold callback; munfold; rewrite ?Hstate, ?Hcode;
      cbn -[lookup insert]; rewrite Hloads; cbn -[lookup insert];
      rewrite Hget; cbn -[lookup insert]; rewrite Hheld; cbn -[lookup insert];
      rewrite Hj; cbn -[lookup insert].
    destruct j; try (unfold log; cbn -[lookup insert]; rewrite <- ?app_assoc; reflexivity).
    exfalso. eapply Hobj. reflexivity.
  - intros fields tok msg Hj Htok Hne Hput. apply String.eqb_neq in Hne.
    unfold callback; munfold; rewrite ?Hstate, ?Hcode;
      cbn -[lookup insert]; rewrite Hloads; cbn -[lookup insert];
      rewrite Hget; cbn -[lookup insert]; rewrite Hheld; cbn -[lookup insert];
      rewrite Hj; cbn -[lookup insert]; rewrite Htok; cbn -[lookup insert];
      rewrite ?Hstate, ?Hne, ?Hput; cbn -[lookup insert].
    unfold log; cbn -[lookup insert]; rewrite <- ?app_assoc; reflexivity.
Qed.
End CallbackOutcomes.

(** X1: a callback whose state verifies and whose record exists, answered
    by GitHub with an access token, overwrites the record of that state
    with the token, whatever the record held, and answers 200; when the
    store refuses the write it answers 500 with the text of the error and
    the record keeps its value. *)
Theorem callback_exchange_then_store R cfg env request w payload held fields tok :
  let state := args_get "state" (args request) in
  let code := args_get "code" (args request) in
  state <> "" -> code <> "" ->
  loads R (SECRET_KEY cfg) (time_now env) 600 state = Return payload ->
  aws_error env (GetSecretValue state) = None ->
  secrets w !! state = Some (SecretString held) ->
  http env (exchange_call cfg env code) = Body (JObj fields) ->
  assoc "access_token" fields = Some (JStr tok) -> tok <> "" ->
  let attempted :=
    (calls w ++ [SerializerLoads state 600; GetSecretValue state; exchange_call cfg env code;
                 PutSecretValue state (JStr tok)])%list in
  (aws_error env (PutSecretValue state (JStr tok)) = None ->
   callback R cfg env request w
   = (Return (Tuple "Authorization complete. Feel free to return to VSCode." 200),
      {| secrets := <[state := SecretString tok]> (secrets w); calls := attempted;
         g_access_token := g_access_token w |})) /\
  (forall msg, aws_error env (PutSecretValue state (JStr tok)) = Some msg ->
   callback R cfg env request w
   = (Aborted 500 ("AWS Secret update failed - " +:+ msg),
      {| secrets := secrets w; calls := attempted; g_access_token := g_access_token w |})).
Proof.
  cbv zeta. intros Hstate Hcode Hl Hget Hheld Hhttp Htok Hne. split.
  - intros Hput.
    exact (proj2 (proj2 (proj2 (callback_exchange_cases R cfg env request w payload held
                                  Hstate Hcode Hl Hget Hheld))) fields tok Hhttp Htok Hne Hput).
  - intros msg Hput.
    exact (proj2 (callback_reply_cases R cfg env request w payload Hstate Hcode Hl held
                    Hget Hheld) fields tok msg Hhttp Htok Hne Hput).
Qed.

Lemma callback_exchange_then_store_witness :
  callback reference_runtime demo_cfg (demo_env 1700000100) (demo_callback "validcode")
    pending_world
  = (Return (Tuple "Authorization complete. Feel free to return to VSCode." 200),
     {| secrets := <[demo_token := SecretString "tok123"]>
                     (<[demo_token := SecretString "null"]> ∅);
        calls := [SerializerLoads demo_token 600; GetSecretValue demo_token;
                  exchange_call demo_cfg (demo_env 1700000100) "validcode";
                  PutSecretValue demo_token (JStr "tok123")];
        g_access_token := None |}).
Proof.
  refine (proj1 (callback_exchange_then_store reference_runtime demo_cfg (demo_env 1700000100)
                   (demo_callback "validcode") pending_world (JStr demo_uuid) "null"
                   [("access_token", JStr "tok123"); ("token_type", JStr "bearer");
                    ("scope", JStr "public_repo")] "tok123" _ _ _ _ _ _ _ _) _).
  - discriminate.
  - discriminate.
  - exact demo_loads_100.
  - reflexivity.
  - apply lookup_insert_eq.
  - reflexivity.
  - reflexivity.
  - discriminate.
  - reflexivity.
Defined.

(** X2: when the exchange request itself fails, callback answers 401 with
    the text of the transport error; the store is not written and no
    [put_secret_value] is attempted. *)
Theorem callback_transport_error R cfg env request w payload held msg :
  let state := args_get "state" (args request) in
  let code := args_get "code" (args request) in
  state <> "" -> code <> "" ->
  loads R (SECRET_KEY cfg) (time_now env) 600 state = Return payload ->
  aws_error env (GetSecretValue state) = None ->
  secrets w !! state = Some (SecretString held) ->
  http env (exchange_call cfg env code) = ConnectionFailed msg ->
  callback R cfg env request w
  = (Aborted 401 ("GitHub access token fetch failed - " +:+ msg),
     {| secrets := secrets w;
        calls := (calls w ++ [SerializerLoads state 600; GetSecretValue state;
                              exchange_call cfg env code])%list;
        g_access_token := g_access_token w |}).
Proof.
  cbv zeta. intros Hstate Hcode Hl Hget Hheld Hhttp.
  exact (proj1 (callback_exchange_cases R cfg env request w payload held
                  Hstate Hcode Hl Hget Hheld) msg Hhttp).
Qed.

Lemma callback_transport_error_witness :
  callback reference_runtime demo_cfg (offline_env 1700000100) (demo_callback "validcode")
    pending_world
  = (Aborted 401 "GitHub access token fetch failed - Connection refused",
     {| secrets := <[demo_token := SecretString "null"]> ∅;
        calls := [SerializerLoads demo_token 600; GetSecretValue demo_token;
                  exchange_call demo_cfg (offline_env 1700000100) "validcode"];
        g_access_token := None |}).
Proof.
  refine (callback_transport_error reference_runtime demo_cfg (offline_env 1700000100)
            (demo_callback "validcode") pending_world (JStr demo_uuid) "null"
            "Connection refused" _ _ _ _ _ _).
  - discriminate.
  - discriminate.
  - exact demo_loads_100.
  - reflexivity.
  - apply lookup_insert_eq.
  - reflexivity.
Defined.

(** X3: a reply of the exchange that is not JSON, or that is JSON but not
    an object, raises outside every [try] of callback: the exception
    escapes the view, Flask answers a plain 500, and the store is not
    written. *)
Theorem callback_unreadable_reply R cfg env request w payload held :
  let state := args_get "state" (args request) in
  let code := args_get "code" (args request) in
  state <> "" -> code <> "" ->
  loads R (SECRET_KEY cfg) (time_now env) 600 state = Return payload ->
  aws_error env (GetSecretValue state) = None ->
  secrets w !! state = Some (SecretString held) ->
  let after :=
    {| secrets := secrets w;
       calls := (calls w ++ [SerializerLoads state 600; GetSecretValue state;
                             exchange_call cfg env code])%list;
       g_access_token := g_access_token w |} in
  (forall msg, http env (exchange_call cfg env code) = NotJson msg ->
     callback R cfg env request w = (Raise (Exn OtherException msg), after)) /\
  (forall j, http env (exchange_call cfg env code) = Body j ->
     (forall fields, j <> JObj fields) ->
     callback R cfg env request w
     = (Raise (Exn OtherException (attribute_error R j)), after)) /\
  (forall e, make_response (Raise e)
             = {| status_code := 500; response_body := Text "Internal Server Error" |}).
Proof.
  cbv zeta. intros Hstate Hcode Hl Hget Hheld. repeat split.
  - intros msg Hhttp.
    exact (proj1 (proj2 (callback_exchange_cases R cfg env request w payload held
                           Hstate Hcode Hl Hget Hheld)) msg Hhttp).
  - intros j Hhttp Hobj.
    exact (proj1 (callback_reply_cases R cfg env request w payload Hstate Hcode Hl held
                    Hget Hheld) j Hhttp Hobj).
Qed.

Lemma callback_unreadable_reply_witness :
  callback reference_runtime demo_cfg (garbled_env 1700000100) (demo_callback "validcode")
    pending_world
  = (Raise (Exn OtherException "Expecting value: line 1 column 1 (char 0)"),
     {| secrets := <[demo_token := SecretString "null"]> ∅;
        calls := [SerializerLoads demo_token 600; GetSecretValue demo_token;
                  exchange_call demo_cfg (garbled_env 1700000100) "validcode"];
        g_access_token := None |}).
Proof.
  refine (proj1 (callback_unreadable_reply reference_runtime demo_cfg
                   (garbled_env 1700000100) (demo_callback "validcode") pending_world
                   (JStr demo_uuid) "null" _ _ _ _ _) _ _).
  - discriminate.
  - discriminate.
  - exact demo_loads_100.
  - reflexivity.
  - apply lookup_insert_eq.
  - reflexivity.
Defined.

(** X4: a callback whose state verifies but whose record cannot be read
    answers 401 before any exchange with GitHub: when the backend fails,
    when no record has that name, and when the record is a binary secret. *)
Theorem callback_lookup_failures R cfg env request w payload :
  let state := args_get "state" (args request) in
  state <> "" -> args_get "code" (args request) <> "" ->
  loads R (SECRET_KEY cfg) (time_now env) 600 state = Return payload ->
  let after :=
    {| secrets := secrets w;
       calls := (calls w ++ [SerializerLoads state 600; GetSecretValue state])%list;
       g_access_token := g_access_token w |} in
  (forall msg, aws_error env (GetSecretValue state) = Some msg ->
     callback R cfg env request w
     = (Aborted 401 ("Unauthorized: AWS Secret fetch failed - " +:+ msg), after)) /\
  (aws_error env (GetSecretValue state) = None -> secrets w !! state = None ->
     exists msg,
       callback R cfg env request w
       = (Aborted 401 ("Unauthorized: AWS Secret fetch failed - " +:+ msg), after)) /\
  (forall b, aws_error env (GetSecretValue state) = None ->
     secrets w !! state = Some (SecretBinary b) ->
     callback R cfg env request w = (Aborted 401 "Invalid state", after)).
Proof.
  cbv zeta. intros Hstate Hcode Hl.
  destruct (callback_lookup_cases R cfg env request w payload Hstate Hcode Hl)
    as (H1 & H2 & H3).
  split; [exact H1|]. split; [|exact H3].
  intros Hget Hnone. eexists. exact (H2 Hget Hnone).
Qed.

Lemma callback_lookup_failures_witness :
  exists msg,
    callback reference_runtime demo_cfg (demo_env 1700000100) (demo_callback "validcode")
      empty_world
    = (Aborted 401 ("Unauthorized: AWS Secret fetch failed - " +:+ msg),
       {| secrets := ∅; calls := [SerializerLoads demo_token 600; GetSecretValue demo_token];
          g_access_token := None |}).
Proof.
  refine (proj1 (proj2 (callback_lookup_failures reference_runtime demo_cfg
                          (demo_env 1700000100) (demo_callback "validcode") empty_world
                          (JStr demo_uuid) _ _ _)) _ _).
  - discriminate.
  - discriminate.
  - exact demo_loads_100.
  - reflexivity.
  - apply lookup_empty.
Defined.

(** X5: callback sends the authorization code and the client secret out
    only after the state has verified and its record has been found: a
    request to GitHub in the log of a callback is the exchange request, and
    it implies both. *)
Theorem callback_exchange_guarded R cfg env request w url data headers :
  let state := args_get "state" (args request) in
  let code := args_get "code" (args request) in
  calls w = [] ->
  In (RequestsPost url data headers) (calls (callback R cfg env request w).2) ->
  RequestsPost url data headers = exchange_call cfg env code /\
  state <> "" /\ code <> "" /\
  (exists payload, loads R (SECRET_KEY cfg) (time_now env) 600 state = Return payload) /\
  (exists held, secrets w !! state = Some (SecretString held)).
Proof.
  cbv zeta. destruct w as [st cs g]. cbn [calls secrets]. intros ->.
  unfold callback. munfold. cbn -[lookup insert].
  repeat (mcase; cbn -[lookup insert]);
    intros Hin;
    repeat (destruct Hin as [Hin|Hin]; [try discriminate Hin|]); try contradiction.
  all: injection Hin as <- <- <-.
  all: repeat match goal with
         | H : _ || _ = false |- _ => apply orb_false_iff in H as [? ?]
         | H : (_ =? "") = false |- _ => apply String.eqb_neq in H
         end.
  all: repeat split; try assumption; try reflexivity; eauto.
Qed.

Lemma callback_exchange_guarded_witness :
  exchange_call demo_cfg (demo_env 1700000100) "validcode"
  = exchange_call demo_cfg (demo_env 1700000100) "validcode" /\
  demo_token <> "" /\ "validcode" <> "" /\
  (exists payload,
     loads reference_runtime "s3cr3t" 1700000100 600 demo_token = Return payload) /\
  (exists held, secrets pending_world !! demo_token = Some (SecretString held)).
Proof.
  refine (callback_exchange_guarded reference_runtime demo_cfg (demo_env 1700000100)
            (demo_callback "validcode") pending_world _ _ _ eq_refl _).
  vm_compute. right. right. left. reflexivity.
Defined.

(** ** The initiate step, when it fails *)

Lemma minted_nonempty R key now id token :
  dumps R key now id = Return token -> token <> "".
Proof.
  intros Hd ->. apply dumps_shape in Hd as (raw & _ & Hd). cbv zeta in Hd.
  destruct (dump_payload R id +:+ String sep (base64_encode raw)); discriminate Hd.
Qed.

(** X6: authorize answers 500, with the text of the error, and writes
    nothing when the backend refuses the creation, when a secret of that
    name exists already (the record keeps what it held), and when the
    clock does not fit the timestamp of the token (no secret is then asked
    for at all). *)
Theorem authorize_failures R cfg env w :
  let minted := dumps R (SECRET_KEY cfg) (time_now env) (uuid4 env) in
  let after l :=
    {| secrets := secrets w; calls := (calls w ++ l)%list;
       g_access_token := g_access_token w |} in
  (forall token msg,
      minted = Return token -> aws_error env (CreateSecret token "null") = Some msg ->
      authorize R cfg env w
      = (Aborted 500 ("AWS Secret creation failed - " +:+ msg),
         after [SerializerDumps (uuid4 env); CreateSecret token "null"])) /\
  (forall token held,
      minted = Return token -> aws_error env (CreateSecret token "null") = None ->
      secrets w !! token = Some held ->
      exists msg,
        authorize R cfg env w
        = (Aborted 500 ("AWS Secret creation failed - " +:+ msg),
           after [SerializerDumps (uuid4 env); CreateSecret token "null"])) /\
  ((2 ^ 64 <= time_now env)%N ->
   exists msg,
     authorize R cfg env w
     = (Aborted 500 ("AWS Secret creation failed - " +:+ msg),
        after [SerializerDumps (uuid4 env)])).
Proof.
  cbv zeta. repeat split.
  - intros token msg Hd Ha. pose proof (minted_nonempty _ _ _ _ _ Hd) as Hne.
    apply String.eqb_neq in Hne.
    munfold. cbn -[lookup insert]. rewrite Hd. cbn -[lookup insert].
    rewrite Hne, Ha. cbn -[lookup insert]. unfold log. cbn -[lookup insert].
    rewrite <- app_assoc. reflexivity.
  - intros token held Hd Ha Hs. pose proof (minted_nonempty _ _ _ _ _ Hd) as Hne.
    apply String.eqb_neq in Hne. eexists.
    munfold. cbn -[lookup insert]. rewrite Hd. cbn -[lookup insert].
    rewrite Hne, Ha. cbn -[lookup insert]. rewrite Hs. cbn -[lookup insert].
    unfold log. cbn -[lookup insert]. rewrite <- app_assoc. reflexivity.
  - intros Hbig. eexists. munfold. unfold dumps, TimestampSigner_sign, int_to_bytes.
    destruct (N.ltb_spec (time_now env) (2 ^ 64)); [lia|]. reflexivity.
Qed.

(** A second initiate that draws the same identifier within the same
    second, in the reference deployment. *)
Lemma authorize_failures_witness :
  exists msg,
    authorize reference_runtime demo_cfg (demo_env 1700000000) pending_world
    = (Aborted 500 ("AWS Secret creation failed - " +:+ msg),
       {| secrets := <[demo_token := SecretString "null"]> ∅;
          calls := [SerializerDumps demo_uuid; CreateSecret demo_token "null"];
          g_access_token := None |}).
Proof.
  refine (proj1 (proj2 (authorize_failures reference_runtime demo_cfg (demo_env 1700000000)
                          pending_world)) demo_token (SecretString "null") _ _ _).
  - exact demo_dumps.
  - reflexivity.
  - apply lookup_insert_eq.
Defined.

(** ** The verify step, in full *)

Lemma startswith_app p s : startswith p s = true -> exists rest, s = p +:+ rest.
Proof.
  revert s. induction p as [|a p IH]; intros s H.
  - exists s. reflexivity.
  - destruct s as [|b s]; [discriminate|]. cbn in H.
    apply andb_true_iff in H as [Hab Hp].
    apply Ascii.eqb_eq in Hab as ->.
    destruct (IH _ Hp) as [rest ->]. exists rest. reflexivity.
Qed.

Lemma bearer_has_segment h :
  startswith "Bearer " h = true -> exists sid, split " " h !! 1%nat = Some sid.
Proof.
  intros H. apply startswith_app in H as [rest ->].
  destruct (first_segment rest) as (sid & Hsid & [-> | [tail ->]]); exists sid.
  - apply split_bearer, Hsid.
  - apply split_bearer_tail, Hsid.
Qed.

Lemma resolve_cases env func sid w :
  (exists d, resolve env func sid w = (Aborted 401 d, log (GetSecretValue sid) w)) \/
  (exists tok,
      secrets w !! sid = Some (SecretString tok) /\ tok <> "" /\ tok <> "null" /\
      resolve env func sid w
      = func {| secrets := secrets w; calls := (calls w ++ [GetSecretValue sid])%list;
                g_access_token := Some tok |}).
Proof.
  unfold resolve. munfold. cbn -[lookup insert].
  repeat (mcase; cbn -[lookup insert]); try (left; eexists; reflexivity).
  right. eexists. split; [reflexivity|].
  match goal with H : _ || _ = false |- _ => apply orb_false_iff in H as [H1 H2] end.
  apply String.eqb_neq in H1, H2. repeat split; assumption.
Qed.

Lemma auth_wrapper_cases env func request w :
  auth_wrapper env func request w = (Aborted 401 "Authorization header not found", w) \/
  (exists sid d,
      auth_wrapper env func request w = (Aborted 401 d, log (GetSecretValue sid) w)) \/
  (exists h sid tok,
      authorization request = Some h /\ startswith "Bearer " h = true /\
      split " " h !! 1%nat = Some sid /\
      secrets w !! sid = Some (SecretString tok) /\ tok <> "" /\ tok <> "null" /\
      auth_wrapper env func request w
      = func {| secrets := secrets w; calls := (calls w ++ [GetSecretValue sid])%list;
                g_access_token := Some tok |}).
Proof.
  unfold auth_wrapper.
  destruct (authorization request) as [h|]; [|now left].
  destruct (String.eqb h ""); [now left|]. cbn [orb].
  destruct (startswith "Bearer " h) eqn:Hb; [|now left]. cbn [negb].
  destruct (bearer_has_segment _ Hb) as [sid Hsid]. rewrite Hsid.
  change (_ ≫= _) with (resolve env func sid) at 1.
  right. destruct (resolve_cases env func sid w) as [[d H] | (tok & H1 & H2 & H3 & H4)].
  - left. exists sid, d. exact H.
  - right. exists h, sid, tok. auto 10.
Qed.

(** X7: a request without an Authorization header, with an empty one, or
    with one that does not start with [Bearer ] (the scheme is compared as
    written, case included) is answered 401 before the store is asked:
    the world is left as it was and the wrapped view does not run. *)
Theorem auth_wrapper_missing_credential env func request w :
  authorization request = None \/
  (exists h, authorization request = Some h /\ startswith "Bearer " h = false) ->
  auth_wrapper env func request w = (Aborted 401 "Authorization header not found", w).
Proof.
  unfold auth_wrapper. intros [-> | (h & -> & Hb)]; [reflexivity|].
  rewrite Hb. cbn [negb]. rewrite orb_true_r. reflexivity.
Qed.

Lemma auth_wrapper_missing_credential_witness :
  check_authorization (demo_env 1700000300)
    {| args := []; authorization := Some "bearer abc" |} pending_world
  = (Aborted 401 "Authorization header not found", pending_world)
  /\
  check_authorization (demo_env 1700000300)
    {| args := []; authorization := Some "Bearer" |} pending_world
  = (Aborted 401 "Authorization header not found", pending_world).
Proof.
  split.
  - apply auth_wrapper_missing_credential. right. exists "bearer abc". split; reflexivity.
  - apply auth_wrapper_missing_credential. right. exists "Bearer". split; reflexivity.
Defined.

(** X8: the verify step has two ways out.  Either it answers 401 having at
    most looked one record up, or the header starts with [Bearer ], the
    record named by its second segment holds a string that is neither
    empty nor the sentinel, and the wrapped view runs with exactly that
    string as [g.access_token].  The subscript [[1]] of the split header
    never fails, and the verify step itself never writes to the store. *)
Theorem auth_wrapper_sound env func request w :
  (exists d w',
      auth_wrapper env func request w = (Aborted 401 d, w') /\
      (w' = w \/ exists sid, w' = log (GetSecretValue sid) w)) \/
  (exists h sid tok,
      authorization request = Some h /\ startswith "Bearer " h = true /\
      split " " h !! 1%nat = Some sid /\
      secrets w !! sid = Some (SecretString tok) /\ tok <> "" /\ tok <> "null" /\
      auth_wrapper env func request w
      = func {| secrets := secrets w; calls := (calls w ++ [GetSecretValue sid])%list;
                g_access_token := Some tok |}).
Proof.
  destruct (auth_wrapper_cases env func request w) as [H | [(sid & d & H) | H]].
  - left. exists "Authorization header not found", w. split; [exact H | now left].
  - left. exists d, (log (GetSecretValue sid) w). split; [exact H|]. right. now exists sid.
  - right. exact H.
Qed.

(** ** What the proxy endpoint sends upstream *)

Lemma get_repo_body_requests R env owner repo st cs tok url headers :
  In (RequestsGet url headers)
     (calls (get_repo_body R env owner repo
               {| secrets := st; calls := cs; g_access_token := Some tok |}).2) ->
  In (RequestsGet url headers) cs \/
  headers = [] \/ headers = [("Authorization", "Bearer " +:+ tok)].
Proof.
  unfold get_repo_body. munfold. cbn -[lookup insert].
  repeat (mcase; cbn -[lookup insert]);
    unfold log; cbn -[lookup insert]; rewrite ?in_app_iff; cbn [In];
    intros H; decompose [or] H; clear H; try contradiction; auto;
    match goal with H : RequestsGet _ _ = RequestsGet _ _ |- _ => injection H as <- <- end;
    auto.
Qed.

(** X9: the proxy endpoint contacts GitHub only on behalf of a session
    whose record holds an access token, and the only credential it ever
    sends is that token, as a bearer; its other request carries none. *)
Theorem get_repo_upstream_guarded R env owner repo request w url headers :
  calls w = [] ->
  In (RequestsGet url headers) (calls (get_repo R env owner repo request w).2) ->
  exists sid tok,
    secrets w !! sid = Some (SecretString tok) /\ tok <> "" /\ tok <> "null" /\
    (headers = [] \/ headers = [("Authorization", "Bearer " +:+ tok)]).
Proof.
  intros Hcalls Hin. unfold get_repo in Hin.
  destruct (auth_wrapper_cases env (get_repo_body R env owner repo) request w)
    as [H | [(sid & d & H) | (h & sid & tok & _ & _ & _ & Hs & Ht1 & Ht2 & H)]];
    rewrite H in Hin; cbn in Hin.
  - rewrite Hcalls in Hin. contradiction.
  - rewrite Hcalls in Hin. cbn in Hin. destruct Hin as [Hin|[]]. discriminate Hin.
  - exists sid, tok. repeat split; try assumption.
    apply get_repo_body_requests in Hin. rewrite Hcalls in Hin. cbn in Hin.
    destruct Hin as [[Hin|[]] | Hin]; [discriminate Hin | exact Hin].
Qed.

Lemma get_repo_upstream_guarded_witness :
  exists sid tok,
    (<[demo_token := SecretString "tok123"]> ∅ : gmap string secret_value) !! sid
    = Some (SecretString tok) /\ tok <> "" /\ tok <> "null" /\
    ([("Authorization", "Bearer tok123")] = []
     \/ [("Authorization", "Bearer tok123")] = [("Authorization", "Bearer " +:+ tok)]).
Proof.
  refine (get_repo_upstream_guarded reference_runtime (demo_env 1700000900) "acme" "widgets"
            {| args := []; authorization := Some ("Bearer " +:+ demo_token) |}
            {| secrets := <[demo_token := SecretString "tok123"]> ∅; calls := [];
               g_access_token := None |}
            "https://api.github.com/repos/acme/widgets/branches/main"
            [("Authorization", "Bearer tok123")] eq_refl _).
  vm_compute. right. right. left. reflexivity.
Defined.

(** ** The handshake, end to end *)

Lemma loads_minted R key t0 now max_age id token :
  RuntimeOk R ->
  dumps R key t0 id = Return token ->
  (t0 <= now)%N -> (Z.of_N now - Z.of_N t0 <= max_age)%Z ->
  loads R key now max_age token = Return (JStr id).
Proof.
  intros HR Hd Hle Hage. unfold loads.
  rewrite (unsign_minted R key HR _ _ _ _ _ Hd Hle Hage).
  now rewrite (load_dump_payload R HR).
Qed.

Lemma serve_authorize_inv R cfg env request st resp st' cs url sid :
  serve R cfg env Authorize request st = (resp, st', cs) ->
  response_body resp = JsonBody (JObj [("redirect_url", JStr url); ("session_id", JStr sid)]) ->
  dumps R (SECRET_KEY cfg) (time_now env) (uuid4 env) = Return sid /\
  st !! sid = None /\ st' = <[sid := SecretString "null"]> st.
Proof.
  unfold serve, view.
  destruct (authorize R cfg env _) as [o w'] eqn:Ha.
  intros [= <- <- <-] Hbody.
  destruct o as [v| |]; try discriminate Hbody.
  apply authorize_inv in Ha as (token & Hd & Hfresh & -> & ->).
  cbn in Hbody. injection Hbody as _ <-. auto.
Qed.

Lemma minted_no_space R key now id token :
  dumps R key now id = Return token -> contains " " token = false.
Proof.
  intros Hd. destruct (dumps_shape _ _ _ _ _ Hd) as (raw & _ & ->). apply token_no_space.
Qed.

(** X10: after a successful initiate, a callback that arrives within 600
    seconds with the returned session id as state, and whose code GitHub
    trades for an access token, answers 200 and leaves that token in the
    record; from then on [GET /check-authorization] with
    [Bearer <session id>] answers 200 at any time, the clock playing no
    part in the verify step. *)
Theorem handshake_completes R cfg env0 env1 env2 req0 st0 resp0 st1 cs0 url sid
    code h fields tok :
  RuntimeOk R ->
  serve R cfg env0 Authorize req0 st0 = (resp0, st1, cs0) ->
  response_body resp0
  = JsonBody (JObj [("redirect_url", JStr url); ("session_id", JStr sid)]) ->
  (time_now env0 <= time_now env1)%N ->
  (Z.of_N (time_now env1) - Z.of_N (time_now env0) <= 600)%Z ->
  code <> "" ->
  aws_error env1 (GetSecretValue sid) = None ->
  http env1 (exchange_call cfg env1 code) = Body (JObj fields) ->
  assoc "access_token" fields = Some (JStr tok) -> tok <> "" -> tok <> "null" ->
  aws_error env1 (PutSecretValue sid (JStr tok)) = None ->
  aws_error env2 (GetSecretValue sid) = None ->
  let st2 := <[sid := SecretString tok]> st1 in
  serve R cfg env1 Callback
    {| args := [("state", sid); ("code", code)]; authorization := h |} st1
  = ({| status_code := 200;
        response_body := Text "Authorization complete. Feel free to return to VSCode." |},
     st2,
     [SerializerLoads sid 600; GetSecretValue sid; exchange_call cfg env1 code;
      PutSecretValue sid (JStr tok)]) /\
  serve R cfg env2 CheckAuthorization
    {| args := []; authorization := Some ("Bearer " +:+ sid) |} st2
  = ({| status_code := 200; response_body := Text "Success" |}, st2, [GetSecretValue sid]).
Proof.
  intros HR Ha Hbody Hle Hage Hcode Hget Hhttp Htok Hne Hnull Hput Hget2. cbv zeta.
  destruct (serve_authorize_inv _ _ _ _ _ _ _ _ _ _ Ha Hbody) as (Hd & _ & ->).
  pose proof (minted_nonempty _ _ _ _ _ Hd) as Hsid.
  pose proof (minted_no_space _ _ _ _ _ Hd) as Hsp.
  pose proof (loads_minted R _ _ _ 600 _ _ HR Hd Hle Hage) as Hl.
  split.
  - unfold serve, view.
    rewrite (proj2 (proj2 (proj2
      (callback_exchange_cases R cfg env1
         {| args := [("state", sid); ("code", code)]; authorization := h |}
         {| secrets := <[sid := SecretString "null"]> st0; calls := [];
            g_access_token := None |}
         (JStr (uuid4 env0)) "null" Hsid Hcode Hl Hget (lookup_insert_eq _ _ _))))
      fields tok Hhttp Htok Hne Hput).
    reflexivity.
  - unfold serve, view, check_authorization.
    rewrite (auth_wrapper_bearer _ _ _ _ _ Hsp).
    rewrite (resolve_token env2 _ sid tok _ Hsid Hget2 (lookup_insert_eq _ _ _) Hne Hnull).
    reflexivity.
Qed.

(** Scenario B in the reference deployment, the check made an hour after
    the handshake. *)
Lemma handshake_completes_witness :
  let st2 := <[demo_token := SecretString "tok123"]>
               (<[demo_token := SecretString "null"]> (∅ : gmap string secret_value)) in
  serve reference_runtime demo_cfg (demo_env 1700000600) Callback
    {| args := [("state", demo_token); ("code", "validcode")]; authorization := None |}
    (<[demo_token := SecretString "null"]> ∅)
  = ({| status_code := 200;
        response_body := Text "Authorization complete. Feel free to return to VSCode." |},
     st2,
     [SerializerLoads demo_token 600; GetSecretValue demo_token;
      exchange_call demo_cfg (demo_env 1700000600) "validcode";
      PutSecretValue demo_token (JStr "tok123")]) /\
  serve reference_runtime demo_cfg (demo_env 1700003600) CheckAuthorization
    {| args := []; authorization := Some ("Bearer " +:+ demo_token) |} st2
  = ({| status_code := 200; response_body := Text "Success" |}, st2,
     [GetSecretValue demo_token]).
Proof.
  refine (handshake_completes reference_runtime demo_cfg (demo_env 1700000000)
            (demo_env 1700000600) (demo_env 1700003600) _ _ _ _ _ _ demo_token
            "validcode" None
            [("access_token", JStr "tok123"); ("token_type", JStr "bearer");
             ("scope", JStr "public_repo")] "tok123"
            reference_runtime_ok demo_serve_authorize eq_refl _ _ _ _ _ _ _ _ _ _).
  - discriminate.
  - discriminate.
  - discriminate.
  - reflexivity.
  - reflexivity.
  - reflexivity.
  - discriminate.
  - discriminate.
  - reflexivity.
  - reflexivity.
Defined.

(** ** Status codes *)

Lemma dumps_not_aborted R key now obj c d : dumps R key now obj <> Aborted c d.
Proof. unfold dumps, TimestampSigner_sign. destruct (int_to_bytes now); discriminate. Qed.

Lemma loads_not_aborted R key now max_age s c d : loads R key now max_age s <> Aborted c d.
Proof.
  unfold loads, TimestampSigner_unsign.
  repeat (mcase; cbn -[lookup insert]); discriminate.
Qed.

Ltac no_abort :=
  exfalso;
  match goal with
  | H : dumps _ _ _ _ = Aborted _ _ |- _ => exact (dumps_not_aborted _ _ _ _ _ _ H)
  | H : loads _ _ _ _ _ = Aborted _ _ |- _ => exact (loads_not_aborted _ _ _ _ _ _ _ H)
  end.

Lemma authorize_status R cfg env w :
  let s := status_code (make_response (authorize R cfg env w).1) in
  s = 200 \/ s = 400 \/ s = 401 \/ s = 500.
Proof.
  cbv zeta. munfold. cbn -[lookup insert].
  repeat (mcase; cbn -[lookup insert]); auto; no_abort.
Qed.

Lemma callback_status R cfg env request w :
  let s := status_code (make_response (callback R cfg env request w).1) in
  s = 200 \/ s = 400 \/ s = 401 \/ s = 500.
Proof.
  cbv zeta. munfold. cbn -[lookup insert].
  repeat (mcase; cbn -[lookup insert]); auto; no_abort.
Qed.

Lemma get_repo_body_status R env owner repo w :
  let s := status_code (make_response (get_repo_body R env owner repo w).1) in
  s = 200 \/ s = 400 \/ s = 401 \/ s = 500.
Proof.
  cbv zeta. munfold. cbn -[lookup insert].
  repeat (mcase; cbn -[lookup insert]); auto.
Qed.

Lemma auth_wrapper_status env func request w :
  (forall w0, let s := status_code (make_response (func w0).1) in
              s = 200 \/ s = 400 \/ s = 401 \/ s = 500) ->
  let s := status_code (make_response (auth_wrapper env func request w).1) in
  s = 200 \/ s = 400 \/ s = 401 \/ s = 500.
Proof.
  cbv zeta. intros Hfunc.
  destruct (auth_wrapper_cases env func request w)
    as [H | [(sid & d & H) | (h & sid & tok & _ & _ & _ & _ & _ & _ & H)]]; rewrite H.
  - cbn. auto.
  - cbn. auto.
  - apply Hfunc.
Qed.

Ltac eunfold := unfold authorize_environ, callback_environ, environ_lookup in *.

Lemma authorize_environ_status R E env w :
  let s := status_code (make_response (authorize_environ R E env w).1) in
  s = 200 \/ s = 400 \/ s = 401 \/ s = 500.
Proof.
  cbv zeta. eunfold. munfold. cbn -[lookup insert].
  repeat (mcase; cbn -[lookup insert]); auto; no_abort.
Qed.

Lemma callback_environ_status R E env request w :
  let s := status_code (make_response (callback_environ R E env request w).1) in
  s = 200 \/ s = 400 \/ s = 401 \/ s = 500.
Proof.
  cbv zeta. eunfold. munfold. cbn -[lookup insert].
  repeat (mcase; cbn -[lookup insert]); auto; no_abort.
Qed.

Lemma dispatch_environ_status R E env e request w :
  let s := status_code (make_response (dispatch_environ R E env e request w).1) in
  s = 200 \/ s = 400 \/ s = 401 \/ s = 500.
Proof.
  destruct e as [|[| | |owner repo]]; cbn [dispatch_environ view_environ].
  - cbn. auto.
  - apply authorize_environ_status.
  - apply callback_environ_status.
  - apply auth_wrapper_status. intros w0. cbn. auto.
  - apply auth_wrapper_status. intros w0. apply get_repo_body_status.
Qed.

Lemma without_body_status m r :
  status_code (match m with HEAD => without_body r | _ => r end) = status_code r.
Proof. destruct m; reflexivity. Qed.

Lemma wsgi_app_status R E env initial target m request st :
  status_code (wsgi_app R E env initial target m request st).1.1.1
  = match target with
    | None => 404
    | Some e =>
        match m with
        | OPTIONS => 200
        | _ => if rule_allows e m
               then status_code
                      (make_response
                         (dispatch_environ R E env e request
                            {| secrets := st; calls := []; g_access_token := None |}).1)
               else 405
        end
    end.
Proof.
  unfold wsgi_app. cbv zeta.
  destruct target as [e|]; [|destruct m; reflexivity].
  destruct m; try reflexivity;
    (destruct (rule_allows e _); [|reflexivity]);
    destruct (dispatch_environ R E env e request _) as [o w']; reflexivity.
Qed.



(** ** The response hook *)

Lemma same_header_refl k : same_header k k = true.
Proof. apply String.eqb_refl. Qed.

Lemma same_header_trans_false a b c :
  same_header a b = true -> same_header c b = false -> same_header a c = false.
Proof.
  unfold same_header. intros Hab Hcb.
  apply String.eqb_eq in Hab. apply String.eqb_neq in Hcb. apply String.eqb_neq.
  congruence.
Qed.

Lemma same_header_sym_false a b : same_header a b = false -> same_header b a = false.
Proof.
  unfold same_header. intros H. apply String.eqb_neq in H. apply String.eqb_neq. congruence.
Qed.

Lemma headers_get_remove_other key k h :
  same_header k key = false ->
  headers_get k (headers_remove key h) = headers_get k h.
Proof.
  intros Hk. induction h as [|[k0 v0] h IH]; [reflexivity|]. cbn [List.filter headers_remove headers_set headers_get fst].
  destruct (same_header k0 key) eqn:E; cbn [List.filter headers_remove headers_set headers_get fst].
  - rewrite (same_header_trans_false _ _ _ E Hk). exact IH.
  - destruct (same_header k0 k); [reflexivity | exact IH].
Qed.

Lemma headers_get_set_same key value h : headers_get key (headers_set key value h) = Some value.
Proof.
  induction h as [|[k0 v0] h IH]; cbn [List.filter headers_remove headers_set headers_get fst].
  - now rewrite same_header_refl.
  - destruct (same_header k0 key) eqn:E; cbn [List.filter headers_remove headers_set headers_get fst].
    + now rewrite same_header_refl.
    + rewrite E. exact IH.
Qed.

Lemma headers_get_set_other key value k h :
  same_header k key = false ->
  headers_get k (headers_set key value h) = headers_get k h.
Proof.
  intros Hk. induction h as [|[k0 v0] h IH]; cbn [List.filter headers_remove headers_set headers_get fst].
  - now rewrite (same_header_sym_false _ _ Hk).
  - destruct (same_header k0 key) eqn:E; cbn [List.filter headers_remove headers_set headers_get fst].
    + rewrite (same_header_sym_false _ _ Hk), (same_header_trans_false _ _ _ E Hk).
      apply headers_get_remove_other, Hk.
    + destruct (same_header k0 k); [reflexivity | exact IH].
Qed.

Lemma headers_remove_none key h :
  List.filter (fun kv => same_header kv.1 key) (headers_remove key h) = [].
Proof.
  induction h as [|[k0 v0] h IH]; [reflexivity|]. cbn [List.filter headers_remove headers_set headers_get fst].
  destruct (same_header k0 key) eqn:E; [exact IH|].
  cbn [List.filter headers_remove headers_set headers_get fst]. rewrite E. exact IH.
Qed.

Lemma headers_set_once key value h :
  List.filter (fun kv => same_header kv.1 key) (headers_set key value h) = [(key, value)].
Proof.
  induction h as [|[k0 v0] h IH]; cbn [List.filter headers_remove headers_set headers_get fst].
  - now rewrite same_header_refl.
  - destruct (same_header k0 key) eqn:E; cbn [List.filter headers_remove headers_set headers_get fst].
    + now rewrite same_header_refl, headers_remove_none.
    + rewrite E. exact IH.
Qed.

Lemma headers_remove_filter_other key k h :
  same_header k key = false ->
  List.filter (fun kv => same_header kv.1 k) (headers_remove key h)
  = List.filter (fun kv => same_header kv.1 k) h.
Proof.
  intros Hk. induction h as [|[k0 v0] h IH]; [reflexivity|]. cbn [List.filter headers_remove headers_set headers_get fst].
  destruct (same_header k0 key) eqn:E; cbn [List.filter headers_remove headers_set headers_get fst].
  - rewrite (same_header_trans_false _ _ _ E Hk). exact IH.
  - destruct (same_header k0 k); now rewrite IH.
Qed.

Lemma headers_set_filter_other key value k h :
  same_header k key = false ->
  List.filter (fun kv => same_header kv.1 k) (headers_set key value h)
  = List.filter (fun kv => same_header kv.1 k) h.
Proof.
  intros Hk. induction h as [|[k0 v0] h IH]; cbn [List.filter headers_remove headers_set headers_get fst].
  - now rewrite (same_header_sym_false _ _ Hk).
  - destruct (same_header k0 key) eqn:E; cbn [List.filter headers_remove headers_set headers_get fst].
    + rewrite (same_header_sym_false _ _ Hk), (same_header_trans_false _ _ _ E Hk).
      apply headers_remove_filter_other, Hk.
    + destruct (same_header k0 k); now rewrite IH.
Qed.

(** X12: every response of the application leaves with the three CORS
    headers set, each once and with its fixed value, whatever headers it
    carried before, under whatever spelling of their names; every header
    of another name is left as it was. *)
Theorem cors_headers_always_set R cfg env initial e request st :
  let h := (full_dispatch R cfg env initial e request st).1.1.2 in
  let named k := List.filter (fun kv : string * string => same_header kv.1 k) h in
  named "Access-Control-Allow-Origin" = [("Access-Control-Allow-Origin", "*")] /\
  named "Access-Control-Allow-Methods"
  = [("Access-Control-Allow-Methods", "GET,POST,OPTIONS")] /\
  named "Access-Control-Allow-Headers"
  = [("Access-Control-Allow-Headers", "Authorization,Content-Type")] /\
  (forall k,
      same_header k "Access-Control-Allow-Origin" = false ->
      same_header k "Access-Control-Allow-Methods" = false ->
      same_header k "Access-Control-Allow-Headers" = false ->
      named k = List.filter (fun kv => same_header kv.1 k) initial /\
      headers_get k h = headers_get k initial).
Proof.
  cbv zeta. unfold full_dispatch. destruct (dispatch R cfg env e request _) as [o w'].
  cbn [fst snd]. unfold add_cors_headers. repeat split.
  - rewrite !headers_set_filter_other by reflexivity. apply headers_set_once.
  - rewrite headers_set_filter_other by reflexivity. apply headers_set_once.
  - apply headers_set_once.
  - rewrite !headers_set_filter_other by assumption. reflexivity.
  - rewrite !headers_get_set_other by assumption. reflexivity.
Qed.

Example cors_headers_replace :
  add_cors_headers [("Content-Type", "text/html; charset=utf-8");
                    ("access-control-allow-origin", "https://example.org");
                    ("Vary", "Origin");
                    ("ACCESS-CONTROL-ALLOW-ORIGIN", "null")]
  = [("Content-Type", "text/html; charset=utf-8");
     ("Access-Control-Allow-Origin", "*");
     ("Vary", "Origin");
     ("Access-Control-Allow-Methods", "GET,POST,OPTIONS");
     ("Access-Control-Allow-Headers", "Authorization,Content-Type")].
Proof. reflexivity. Qed.

(** ** Quoting and the redirect URL *)

Lemma alphabet_quote_safe c : contains c base64_alphabet = true -> quote_safe c = true.
Proof.
  destruct c as [[] [] [] [] [] [] [] []]; intros H; try reflexivity; discriminate H.
Qed.

Lemma hex_quote_safe c : contains c "0123456789ABCDEF" = true -> quote_safe c = true.
Proof.
  destruct c as [[] [] [] [] [] [] [] []]; intros H; try reflexivity; discriminate H.
Qed.

Lemma hex_digit_safe n : quote_safe (hex_digit n) = true.
Proof.
  apply hex_quote_safe. unfold hex_digit.
  destruct (String.get (N.to_nat n) "0123456789ABCDEF") eqn:E; [|reflexivity].
  eapply get_contains, E.
Qed.

Lemma all_quote_safe_app a b :
  all_quote_safe (a +:+ b) = all_quote_safe a && all_quote_safe b.
Proof.
  induction a as [|c a IH]; [reflexivity|].
  rewrite app_cons. cbn [all_quote_safe]. rewrite IH. apply andb_assoc.
Qed.

Lemma base64_encode_quote_safe s : all_quote_safe (base64_encode s) = true.
Proof.
  assert (forall i, quote_safe (base64_char i) = true) as Hc.
  { intros i. apply alphabet_quote_safe, base64_char_alphabet. }
  induction s as [| a | a b | a b d s IH] using string_ind3;
    cbn [base64_encode all_quote_safe]; rewrite ?Hc, ?IH; reflexivity.
Qed.

Lemma quote_safe_id s : all_quote_safe s = true -> quote s = s.
Proof.
  induction s as [|c s IH]; [reflexivity|]. cbn [all_quote_safe quote].
  intros H. apply andb_true_iff in H as [Hc Hs]. rewrite Hc, (IH Hs). reflexivity.
Qed.

Lemma dump_payload_quote_safe R id : all_quote_safe (dump_payload R id) = true.
Proof.
  unfold dump_payload. destruct (_ <? _)%Z; cbn [all_quote_safe];
    rewrite base64_encode_quote_safe; reflexivity.
Qed.

(** X13: a token minted by the serializer consists of characters that
    URL quoting leaves alone, so the [state] parameter that authorize
    appends to the redirect URL as it is reads back as the token: quoting
    it would not change a character. *)
Theorem minted_token_needs_no_quoting R key now id token :
  dumps R key now id = Return token ->
  all_quote_safe token = true /\ quote token = token.
Proof.
  intros Hd. assert (all_quote_safe token = true) as H.
  { destruct (dumps_shape _ _ _ _ _ Hd) as (raw & _ & ->).
    rewrite !all_quote_safe_app. cbn [all_quote_safe]. unfold get_signature.
    rewrite dump_payload_quote_safe, !base64_encode_quote_safe. reflexivity. }
  split; [exact H | apply quote_safe_id, H].
Qed.

Lemma minted_token_needs_no_quoting_witness :
  all_quote_safe demo_token = true /\ quote demo_token = demo_token.
Proof.
  exact (minted_token_needs_no_quoting reference_runtime "s3cr3t" 1700000000 demo_uuid
           demo_token demo_dumps).
Defined.

Lemma quote_chars s c :
  contains c (quote s) = true -> quote_safe c = true \/ c = "%"%char.
Proof.
  induction s as [|d s IH]; [discriminate|]. cbn [quote].
  destruct (quote_safe d) eqn:Hd; cbn [contains]; intros H.
  - apply orb_true_iff in H as [H|H]; [|exact (IH H)].
    apply Ascii.eqb_eq in H as <-. now left.
  - repeat (apply orb_true_iff in H as [H|H];
            [apply Ascii.eqb_eq in H as <-; first [now right | left; apply hex_digit_safe]|]).
    exact (IH H).
Qed.

(** X14: the quoted callback URL that authorize puts into the redirect URL
    holds only unreserved characters, [/] and [%]: whatever [url_for]
    returns, the value of [redirect_uri] contains no [&], [=], [?], [#] or
    space that could end the parameter or start another. *)
Theorem quoted_callback_url_is_one_parameter cfg env :
  let q := quote (callback_url cfg env) in
  (forall c, contains c q = true -> quote_safe c = true \/ c = "%"%char) /\
  contains "&" q = false /\ contains "=" q = false /\ contains "?" q = false /\
  contains "#" q = false /\ contains " " q = false.
Proof.
  cbv zeta. split; [intros c; apply quote_chars|].
  repeat split;
    match goal with |- contains ?c ?q = false =>
      destruct (contains c q) eqn:E; [|reflexivity];
      destruct (quote_chars _ _ E) as [H|H]; discriminate H
    end.
Qed.

Example quoted_production_url :
  quote "https://repoview.example/callback?next=/a b&x=1#top"
  = "https%3A//repoview.example/callback%3Fnext%3D/a%20b%26x%3D1%23top".
Proof. reflexivity. Qed.

(** ** What the store holds *)

Lemma authorize_writes R cfg env w :
  secrets (authorize R cfg env w).2 = secrets w \/
  exists token,
    dumps R (SECRET_KEY cfg) (time_now env) (uuid4 env) = Return token /\
    secrets w !! token = None /\
    secrets (authorize R cfg env w).2 = <[token := SecretString "null"]> (secrets w).
Proof.
  munfold. cbn -[lookup insert].
  repeat (mcase; cbn -[lookup insert]); auto.
  right. eexists. split; [reflexivity|]. split; [eassumption | reflexivity].
Qed.

Lemma callback_writes R cfg env request w :
  secrets (callback R cfg env request w).2 = secrets w \/
  exists payload held tok,
    loads R (SECRET_KEY cfg) (time_now env) 600 (args_get "state" (args request))
      = Return payload /\
    secrets w !! args_get "state" (args request) = Some held /\
    tok <> "" /\
    secrets (callback R cfg env request w).2
    = <[args_get "state" (args request) := SecretString tok]> (secrets w).
Proof.
  munfold. cbn -[lookup insert].
  repeat (mcase; cbn -[lookup insert]); auto.
  right. do 3 eexists. split; [reflexivity|]. split; [reflexivity|].
  split; [|reflexivity]. intros ->. discriminate.
Qed.

Lemma step_writes R cfg s st :
  step R cfg s st = st \/
  (step_route s = Authorize /\
   exists token,
     dumps R (SECRET_KEY cfg) (time_now (step_env s)) (uuid4 (step_env s)) = Return token /\
     st !! token = None /\
     step R cfg s st = <[token := SecretString "null"]> st) \/
  (step_route s = Callback /\
   exists payload held tok,
     loads R (SECRET_KEY cfg) (time_now (step_env s)) 600
       (args_get "state" (args (step_request s))) = Return payload /\
     st !! args_get "state" (args (step_request s)) = Some held /\
     tok <> "" /\
     step R cfg s st = <[args_get "state" (args (step_request s)) := SecretString tok]> st).
Proof.
  rewrite step_secrets. destruct (step_route s) eqn:Hr; cbn [view].
  - destruct (authorize_writes R cfg (step_env s)
                {| secrets := st; calls := []; g_access_token := None |}) as [H|H];
      [now left | right; left; auto].
  - destruct (callback_writes R cfg (step_env s) (step_request s)
                {| secrets := st; calls := []; g_access_token := None |}) as [H|H];
      [now left | right; right; auto].
  - left. apply (auth_wrapper_store (step_env s) _ (step_request s)
                   {| secrets := st; calls := []; g_access_token := None |}).
    reflexivity.
  - left. apply (auth_wrapper_store (step_env s) _ (step_request s)
                   {| secrets := st; calls := []; g_access_token := None |}).
    apply get_repo_body_store.
Qed.

Lemma step_written R cfg s st : written_by_app st -> written_by_app (step R cfg s st).
Proof.
  intros Hst.
  destruct (step_writes R cfg s st)
    as [-> | [(_ & token & Hd & _ & ->) | (_ & payload & held & tok & _ & Hheld & Hne & ->)]];
    [exact Hst | |]; intros k v Hk.
  - destruct (decide (token = k)) as [<-|Hneq].
    + rewrite lookup_insert_eq in Hk. injection Hk as <-.
      split; [eapply minted_nonempty, Hd|]. split; [eapply minted_no_space, Hd|].
      exists "null". split; [reflexivity | discriminate].
    + rewrite lookup_insert_ne in Hk by exact Hneq. exact (Hst k v Hk).
  - destruct (decide (args_get "state" (args (step_request s)) = k)) as [<-|Hneq].
    + rewrite lookup_insert_eq in Hk. injection Hk as <-.
      destruct (Hst _ _ Hheld) as (H1 & H2 & _).
      split; [exact H1|]. split; [exact H2|]. exists tok. split; [reflexivity | exact Hne].
    + rewrite lookup_insert_ne in Hk by exact Hneq. exact (Hst k v Hk).
Qed.

(** X15: the application only ever writes records whose name is not empty
    and holds no space and whose value is a string that is not empty: a
    store that satisfies this keeps satisfying it through any sequence of
    requests, and so does every store the application builds up from
    nothing.  No request turns a record into a binary secret. *)
Theorem store_invariant R cfg steps st :
  written_by_app st -> written_by_app (run R cfg steps st).
Proof.
  revert st. induction steps as [|s steps IH]; intros st Hst; [exact Hst|].
  cbn. apply IH, step_written, Hst.
Qed.

Lemma store_invariant_witness : written_by_app (run reference_runtime demo_cfg demo_steps ∅).
Proof.
  apply (store_invariant reference_runtime demo_cfg demo_steps ∅).
  intros k v Hk. rewrite lookup_empty in Hk. discriminate Hk.
Defined.

(** ** Sessions that were never completed *)

Lemma step_expired R cfg s st t0 id token v :
  RuntimeOk R ->
  dumps R (SECRET_KEY cfg) t0 id = Return token ->
  st !! token = Some v ->
  (600 < Z.of_N (time_now (step_env s)) - Z.of_N t0)%Z ->
  step R cfg s st !! token = Some v.
Proof.
  intros HR Hd Hv Hage.
  destruct (step_writes R cfg s st)
    as [-> | [(_ & token' & _ & Hfresh & ->) | (_ & payload & held & tok & Hl & _ & _ & ->)]];
    [exact Hv | |].
  - rewrite lookup_insert_ne; [exact Hv|]. intros <-. congruence.
  - rewrite lookup_insert_ne; [exact Hv|]. intros E. rewrite E in Hl.
    rewrite (loads_expired R _ _ _ _ t0 (token_timestamp_minted _ _ _ _ _ HR Hd) Hage) in Hl.
    discriminate Hl.
Qed.

(** X16: once more than 600 seconds have passed since a token was minted,
    no request changes the record stored under it: a callback with that
    state is refused, a callback with another state writes elsewhere, and
    initiate never overwrites.  A session not completed in time keeps its
    record, sentinel included, for good. *)
Theorem expired_session_record_is_frozen R cfg steps st t0 id token v :
  RuntimeOk R ->
  dumps R (SECRET_KEY cfg) t0 id = Return token ->
  st !! token = Some v ->
  Forall (fun s => (600 < Z.of_N (time_now (step_env s)) - Z.of_N t0)%Z) steps ->
  run R cfg steps st !! token = Some v.
Proof.
  intros HR Hd. revert st. induction steps as [|s steps IH]; intros st Hv Hall;
    [exact Hv|].
  apply Forall_cons in Hall as [Hs Hall]. cbn.
  apply IH; [|exact Hall]. eapply step_expired; eassumption.
Qed.

Lemma expired_session_record_is_frozen_witness :
  run reference_runtime demo_cfg late_steps (<[demo_token := SecretString "null"]> ∅)
    !! demo_token
  = Some (SecretString "null").
Proof.
  apply (expired_session_record_is_frozen reference_runtime demo_cfg late_steps _
           1700000000 demo_uuid demo_token).
  - exact reference_runtime_ok.
  - exact demo_dumps.
  - apply lookup_insert_eq.
  - repeat constructor.
Defined.

(** X17: two tokens minted under one key are the same string only if they
    were minted from the same identifier in the same second, so that two
    sessions share a record name in no other case. *)
Theorem minted_tokens_distinct R key t id t' id' token :
  RuntimeOk R ->
  dumps R key t id = Return token -> dumps R key t' id' = Return token ->
  id = id' /\ t = t'.
Proof.
  intros HR Hd Hd'.
  pose proof (token_timestamp_minted _ _ _ _ _ HR Hd) as Ht.
  pose proof (token_timestamp_minted _ _ _ _ _ HR Hd') as Ht'.
  assert (t = t') as <- by congruence. split; [|reflexivity].
  pose proof (loads_minted R key t t 0 id token HR Hd ltac:(lia) ltac:(lia)) as Hl.
  pose proof (loads_minted R key t t 0 id' token HR Hd' ltac:(lia) ltac:(lia)) as Hl'.
  congruence.
Qed.

Lemma minted_tokens_distinct_witness :
  demo_uuid = demo_uuid /\ 1700000000%N = 1700000000%N.
Proof.
  exact (minted_tokens_distinct reference_runtime "s3cr3t" 1700000000 demo_uuid
           1700000000 demo_uuid demo_token reference_runtime_ok demo_dumps demo_dumps).
Defined.

(** ** Requests that fail *)

Lemma authorize_environ_set R E env :
  has_GITHUB_CLIENT_ID E = true ->
  authorize_environ R E env = authorize R (environ_config E) env.
Proof. intros H. unfold authorize_environ, authorize, environ_lookup. rewrite H. reflexivity. Qed.

Lemma callback_environ_set R E env request :
  has_GITHUB_CLIENT_ID E = true -> has_GITHUB_CLIENT_SECRET E = true ->
  callback_environ R E env request = callback R (environ_config E) env request.
Proof.
  intros H1 H2. unfold callback_environ, callback, environ_lookup. rewrite H1, H2.
  reflexivity.
Qed.

Lemma authorize_environ_failed_store R E env w :
  (exists v, (authorize_environ R E env w).1 = Return v) \/
  secrets (authorize_environ R E env w).2 = secrets w \/
  (has_GITHUB_CLIENT_ID E = false /\
   exists token,
     dumps R (SECRET_KEY (environ_config E)) (time_now env) (uuid4 env) = Return token /\
     aws_error env (CreateSecret token "null") = None /\
     secrets w !! token = None /\
     (authorize_environ R E env w).1 = Raise (Exn OtherException "'GITHUB_CLIENT_ID'") /\
     secrets (authorize_environ R E env w).2 = <[token := SecretString "null"]> (secrets w)).
Proof.
  unfold authorize_environ, environ_lookup. munfold. cbn -[lookup insert].
  repeat (mcase; cbn -[lookup insert]); eauto.
  right. right. split; [reflexivity|]. eexists.
  split; [reflexivity|]. split; [eassumption|]. split; [eassumption|].
  split; reflexivity.
Qed.

Lemma callback_environ_failed_store R E env request w :
  (callback_environ R E env request w).1
  = Return (Tuple "Authorization complete. Feel free to return to VSCode." 200) \/
  secrets (callback_environ R E env request w).2 = secrets w.
Proof.
  unfold callback_environ, environ_lookup. munfold. cbn -[lookup insert].
  repeat (mcase; cbn -[lookup insert]); eauto.
Qed.

Lemma authorize_environ_unset R E env w token :
  has_GITHUB_CLIENT_ID E = false ->
  dumps R (SECRET_KEY (environ_config E)) (time_now env) (uuid4 env) = Return token ->
  aws_error env (CreateSecret token "null") = None ->
  secrets w !! token = None ->
  authorize_environ R E env w
  = (Raise (Exn OtherException "'GITHUB_CLIENT_ID'"),
     {| secrets := <[token := SecretString "null"]> (secrets w);
        calls := (calls w ++ [SerializerDumps (uuid4 env); CreateSecret token "null"])%list;
        g_access_token := g_access_token w |}).
Proof.
  intros Hid Hd Ha Hs.
  pose proof (authorize_returns R (environ_config E) env w token Hd Ha Hs) as Hret.
  unfold authorize_environ, environ_lookup. rewrite Hid.
  unfold authorize in Hret. unfold mbind, M_bind in *.
  destruct (try_except _ _ w) as [[sid| |] w'] eqn:Ht; cbn in Hret |- *;
    try discriminate.
  inversion Hret; subst. reflexivity.
Qed.

(** X18: what a request that is not answered 200 does to the store.
    Callback, verify and the proxy endpoint leave the store exactly as
    they found it, and so does initiate, with one exception: where
    [GITHUB_CLIENT_ID] is not set, initiate creates the record and then
    fails on the lookup of the variable, which nothing catches, so the
    answer is the plain 500 and the record stays.  With both GitHub
    variables set, the requests are served as [serve] describes. *)
Theorem failed_request_store R E env rt request st :
  let cfg := environ_config E in
  let r := serve_environ R E env rt request st in
  (status_code r.1.1 <> 200 ->
   r.1.2 = st \/
   rt = Authorize /\ has_GITHUB_CLIENT_ID E = false /\
   exists token,
     dumps R (SECRET_KEY cfg) (time_now env) (uuid4 env) = Return token /\
     st !! token = None /\
     r = ({| status_code := 500; response_body := Text "Internal Server Error" |},
          <[token := SecretString "null"]> st,
          [SerializerDumps (uuid4 env); CreateSecret token "null"])) /\
  (forall token,
      rt = Authorize -> has_GITHUB_CLIENT_ID E = false ->
      dumps R (SECRET_KEY cfg) (time_now env) (uuid4 env) = Return token ->
      aws_error env (CreateSecret token "null") = None ->
      st !! token = None ->
      r = ({| status_code := 500; response_body := Text "Internal Server Error" |},
           <[token := SecretString "null"]> st,
           [SerializerDumps (uuid4 env); CreateSecret token "null"])) /\
  (has_GITHUB_CLIENT_ID E = true -> has_GITHUB_CLIENT_SECRET E = true ->
   r = serve R cfg env rt request st).
Proof.
  cbv zeta. split; [|split].
  - intros Hstatus. unfold serve_environ in *.
    destruct (view_environ R E env rt request _) as [o w'] eqn:Hv. cbn [fst snd] in *.
    destruct rt as [| | |owner repo]; cbn [view_environ] in Hv.
    + destruct (authorize_environ_failed_store R E env
                  {| secrets := st; calls := []; g_access_token := None |})
        as [[v H]|[H|(Hid & token & Hd & Ha & Hs & _ & _)]].
      * rewrite Hv in H. cbn [fst] in H. subst o.
        rewrite authorize_environ_set in Hv.
        -- apply authorize_inv in Hv as (token & _ & _ & -> & _).
           exfalso. apply Hstatus. reflexivity.
        -- destruct (has_GITHUB_CLIENT_ID E) eqn:Hid; [reflexivity|].
           unfold authorize_environ, environ_lookup in Hv. rewrite Hid in Hv.
           unfold mbind, M_bind in Hv.
           destruct (try_except _ _ _) as [[sid| |] w0]; discriminate Hv.
      * rewrite Hv in H. left. exact H.
      * right. split; [reflexivity|]. split; [exact Hid|]. exists token.
        split; [exact Hd|]. split; [exact Hs|].
        rewrite (authorize_environ_unset R E env
                   {| secrets := st; calls := []; g_access_token := None |}
                   token Hid Hd Ha Hs) in Hv.
        injection Hv as <- <-. reflexivity.
    + left. destruct (callback_environ_failed_store R E env request
                  {| secrets := st; calls := []; g_access_token := None |}) as [H|H];
        rewrite Hv in H; cbn [fst snd] in H; [|exact H].
      subst o. exfalso. apply Hstatus. reflexivity.
    + left.
      assert (secrets (check_authorization env request
                         {| secrets := st; calls := []; g_access_token := None |}).2 = st)
        as H by (apply (auth_wrapper_store env _ request
                          {| secrets := st; calls := []; g_access_token := None |});
                 reflexivity).
      rewrite Hv in H. exact H.
    + left.
      pose proof (auth_wrapper_store env (get_repo_body R env owner repo) request
                    {| secrets := st; calls := []; g_access_token := None |}
                    (get_repo_body_store R env owner repo)) as H.
      unfold get_repo in Hv. rewrite Hv in H. exact H.
  - intros token -> Hid Hd Ha Hs. unfold serve_environ. cbn [view_environ].
    rewrite (authorize_environ_unset R E env
                   {| secrets := st; calls := []; g_access_token := None |}
                   token Hid Hd Ha Hs). reflexivity.
  - intros H1 H2. unfold serve_environ, serve.
    destruct rt; cbn [view_environ view];
      rewrite ?authorize_environ_set, ?callback_environ_set by assumption; reflexivity.
Qed.

(** Initiate in the reference deployment with [GITHUB_CLIENT_ID] left out:
    the answer is 500 and the record is there. *)
Lemma failed_request_store_witness :
  serve_environ reference_runtime demo_environ_unset (demo_env 1700000000) Authorize
    {| args := []; authorization := None |} ∅
  = ({| status_code := 500; response_body := Text "Internal Server Error" |},
     <[demo_token := SecretString "null"]> ∅,
     [SerializerDumps demo_uuid; CreateSecret demo_token "null"]).
Proof.
  apply (proj1 (proj2
           (failed_request_store reference_runtime demo_environ_unset (demo_env 1700000000)
              Authorize {| args := []; authorization := None |} ∅)) demo_token).
  - reflexivity.
  - reflexivity.
  - exact demo_dumps.
  - reflexivity.
  - apply lookup_empty.
Defined.
